(** * A shallow embedding of the shop-backend sales service (Go, database/sql)

    The repository holds several revisions of one [main.go]:
    - [MainV1]  : src/main.go lines 1-183 (string [createdDate], cell/warranty,
                  path-suffix delete);
    - [MainV2]  : src/main.go lines 185-358 (LIMIT 100, pre-allocated slice);
    - [Part000] : src/unnamed/part_000 (POST delete with a JSON body);
    - [Part001] : src/unnamed/part_001 (scan errors ignored);
    - [Part004] : src/unnamed/part_004 (LIMIT 500, reset endpoint).

    The store is modelled as explicit state: the [sales] rows, the value the
    [sale_id] SERIAL sequence hands out next, the column default of
    [payment_method], the store clock, whether the store is reachable, and a
    log of every statement sent to it.  Every handler is a function
    [Req -> DB -> Resp * DB].

    Simplifications, none of which a statement below depends on: JSON
    numbers are integers (a [float64] price is kept as its integer value);
    HTTP headers are not modelled; the store refuses a statement only when
    it is unreachable, when a text parameter does not cast to the column's
    type, or when a number is out of its column's range; PostgreSQL's
    NOT NULL checks never fire, as Go never sends NULL here. *)

From Stdlib Require Import String Ascii List ZArith Bool Lia.
From Stdlib Require Import Sorting.Mergesort Sorting.Permutation Sorting.Sorted.
Import ListNotations.
Open Scope string_scope.
Open Scope Z_scope.
#[local] Set Warnings "-register-all".

(** ** JSON values and request bodies (encoding/json) *)

Inductive JVal : Type :=
| JNull
| JBool (b : bool)
| JNum (n : Z)
| JStr (s : string)
| JArr (xs : list JVal)
| JObj (kvs : list (string * JVal)).

(** What [json.NewDecoder(r.Body).Decode] reads: nothing at all (io.EOF),
    text that is not JSON (the decoder's syntax error message), or one
    JSON value. *)
Inductive Body : Type :=
| BodyEmpty
| BodySyntax (msg : string)
| BodyJson (v : JVal).

Definition jkind (v : JVal) : string :=
  match v with
  | JNull => "null" | JBool _ => "bool" | JNum _ => "number"
  | JStr _ => "string" | JArr _ => "array" | JObj _ => "object"
  end.

(** ** Go values and structs

    A Go struct is the list of its fields, by JSON name, in declaration
    order; this is how encoding/json and database/sql see it through
    reflection. *)

Inductive GoVal : Type :=
| GInt (n : Z)        (* int *)
| GFloat (x : Z)      (* float64 *)
| GStr (s : string)   (* string *)
| GTime (t : Z).      (* time.Time, seconds *)

Definition GoStruct := list (string * GoVal).

Fixpoint lookup (f : string) (st : GoStruct) : option GoVal :=
  match st with
  | [] => None
  | (g, v) :: rest => if String.eqb f g then Some v else lookup f rest
  end.

Fixpoint set_field (f : string) (v : GoVal) (st : GoStruct) : GoStruct :=
  match st with
  | [] => []
  | (g, w) :: rest =>
      if String.eqb f g then (g, v) :: rest else (g, w) :: set_field f v rest
  end.

Definition get_str (f : string) (st : GoStruct) : string :=
  match lookup f st with Some (GStr s) => s | _ => "" end.

Definition get_int (f : string) (st : GoStruct) : Z :=
  match lookup f st with Some (GInt n) => n | _ => 0 end.

Definition get_float (f : string) (st : GoStruct) : Z :=
  match lookup f st with Some (GFloat x) => x | _ => 0 end.

(** [time.Time{}], 0001-01-01T00:00:00Z, in Unix seconds. *)
Definition zero_time : Z := -62135596800.

Definition get_time (f : string) (st : GoStruct) : Z :=
  match lookup f st with Some (GTime t) => t | _ => zero_time end.

(** ASCII case folding, as encoding/json matches object keys to field names
    case-insensitively when no exact match exists. *)
Definition lower_ascii (c : ascii) : ascii :=
  let n := nat_of_ascii c in
  if (65 <=? n)%nat && (n <=? 90)%nat then ascii_of_nat (n + 32) else c.

Fixpoint lower_string (s : string) : string :=
  match s with
  | EmptyString => EmptyString
  | String c rest => String (lower_ascii c) (lower_string rest)
  end.

Fixpoint find_field (p : string -> bool) (st : GoStruct) : option string :=
  match st with
  | [] => None
  | (g, _) :: rest => if p g then Some g else find_field p rest
  end.

Definition field_for_key (k : string) (st : GoStruct) : option string :=
  match find_field (String.eqb k) st with
  | Some g => Some g
  | None => find_field (fun g => String.eqb (lower_string g) (lower_string k)) st
  end.

Definition int64_min : Z := - 2 ^ 63.
Definition int64_max : Z := 2 ^ 63 - 1.

(** The text forms of timestamps belong to the Go runtime and to the store,
    not to this repository; they are the parameters of the model:
    [parse_rfc3339] is [time.Time.UnmarshalJSON] on a JSON string's
    contents, [format_rfc3339] is [t.Format(time.RFC3339)],
    [format_rfc3339nano] is [time.Time.MarshalJSON], and [pg_timestamp] is
    the store's [text::timestamp] cast. *)
Record Runtime : Type := mkRuntime {
  parse_rfc3339 : string -> option Z;
  format_rfc3339 : Z -> string;
  format_rfc3339nano : Z -> string;
  pg_timestamp : string -> option Z
}.

(** The outcome of storing one JSON value into one field. *)
Inductive Store : Type :=
| StoreOk (v : GoVal)       (* the field takes [v] *)
| StoreSaved (e : string)   (* UnmarshalTypeError: kept, decoding goes on *)
| StoreAbort (e : string).  (* an Unmarshaler failed: decoding stops *)

(** Go's text also names the struct field; no statement below depends on
    the text of an error. *)
Definition type_error (v : JVal) (go : string) : string :=
  "json: cannot unmarshal " ++ jkind v ++ " into Go value of type " ++ go.

Definition store_field (rt : Runtime) (cur : GoVal) (v : JVal) : Store :=
  match cur, v with
  | _, JNull => StoreOk cur
  | GInt _, JNum n =>
      if (int64_min <=? n) && (n <=? int64_max) then StoreOk (GInt n)
      else StoreSaved (type_error v "int")
  | GInt _, _ => StoreSaved (type_error v "int")
  | GFloat _, JNum n => StoreOk (GFloat n)
  | GFloat _, _ => StoreSaved (type_error v "float64")
  | GStr _, JStr s => StoreOk (GStr s)
  | GStr _, _ => StoreSaved (type_error v "string")
  | GTime _, JStr s =>
      match parse_rfc3339 rt s with
      | Some t => StoreOk (GTime t)
      | None => StoreAbort ("parsing time " ++ s ++ " as RFC3339: cannot parse")
      end
  | GTime _, _ => StoreAbort "Time.UnmarshalJSON: input is not a JSON string"
  end.

Definition first_error (saved : option string) (e : string) : option string :=
  match saved with Some _ => saved | None => Some e end.

Fixpoint decode_object (rt : Runtime) (st : GoStruct) (kvs : list (string * JVal))
    (saved : option string) : GoStruct * option string :=
  match kvs with
  | [] => (st, saved)
  | (k, v) :: rest =>
      match field_for_key k st with
      | None => decode_object rt st rest saved
      | Some f =>
          match lookup f st with
          | None => decode_object rt st rest saved
          | Some cur =>
              match store_field rt cur v with
              | StoreOk g => decode_object rt (set_field f g st) rest saved
              | StoreSaved e => decode_object rt st rest (first_error saved e)
              | StoreAbort e => (st, Some e)
              end
          end
      end
  end.

(** [json.NewDecoder(body).Decode(&s)] with [s] the zero struct [zero]:
    the struct as left in place, and the error returned. *)
Definition decode (rt : Runtime) (zero : GoStruct) (b : Body) : GoStruct * option string :=
  match b with
  | BodyEmpty => (zero, Some "EOF")
  | BodySyntax msg => (zero, Some msg)
  | BodyJson JNull => (zero, None)
  | BodyJson (JObj kvs) => decode_object rt zero kvs None
  | BodyJson v => (zero, Some (type_error v "main.Sale"))
  end.

Definition encode_goval (rt : Runtime) (v : GoVal) : JVal :=
  match v with
  | GInt n => JNum n
  | GFloat x => JNum x
  | GStr s => JStr s
  | GTime t => JStr (format_rfc3339nano rt t)
  end.

Definition encode_struct (rt : Runtime) (st : GoStruct) : JVal :=
  JObj (map (fun '(f, v) => (f, encode_goval rt v)) st).

(** A Go slice value: [None] is the nil slice, [Some l] an allocated one. *)
Definition encode_slice (rt : Runtime) (s : option (list GoStruct)) : JVal :=
  match s with
  | None => JNull
  | Some l => JArr (map (encode_struct rt) l)
  end.

Definition go_append {A} (s : option (list A)) (x : A) : option (list A) :=
  Some (match s with None => [x] | Some l => (l ++ [x])%list end).

(** ** The [sales] table *)

(** One row, with every column of every revision's schema; a column that
    holds NULL is [None]. *)
Record Row : Type := mkRow {
  sale_id : Z;
  customer_name : option string;
  product_name : option string;
  cell : option string;
  warranty : option string;
  quantity : option Z;
  price : option Z;
  payment_method : option string;
  created_date : option Z
}.

(** [ORDER BY created_date DESC]: later first, NULL before any date
    (PostgreSQL sorts NULLs first in descending order). *)
Module RowDesc <: Orders.TotalLeBool.
Definition t := Row.
Definition leb (a b : Row) : bool :=
  match created_date a, created_date b with
  | None, _ => true
  | Some _, None => false
  | Some x, Some y => Z.leb y x
  end.
Theorem leb_total : forall a1 a2, leb a1 a2 = true \/ leb a2 a1 = true.
Proof.
  intros a1 a2; unfold leb.
  destruct (created_date a1), (created_date a2); auto.
  destruct (Z.leb_spec z0 z), (Z.leb_spec z z0); auto; lia.
Qed.
End RowDesc.

Module RowSort := Sort RowDesc.

Definition order_by_created_desc (rows : list Row) : list Row := RowSort.sort rows.

(** ** Store values, results and statements *)

(** A value crossing the driver boundary (a column of a result row, or a
    statement parameter). *)
Inductive SqlVal : Type :=
| SNull
| SInt (n : Z)
| SNum (n : Z)
| SText (s : string)
| STime (t : Z).

Inductive result (A : Type) : Type :=
| Ok (a : A)
| Err (e : string).
Arguments Ok {A} a.
Arguments Err {A} e.

(** Every statement a handler sends to the store. *)
Inductive Stmt : Type :=
| StmtSelect (limit : option nat)
| StmtInsert
| StmtDelete (arg : SqlVal)
| StmtTruncate.

(** The store behind the [db] handle. *)
Record DB : Type := mkDB {
  tbl : list Row;
  seq : Z;                      (* next value of the sale_id sequence *)
  pm_default : option string;   (* DEFAULT of payment_method, if any *)
  cd_default : Z -> option Z;   (* DEFAULT of created_date, at a given clock *)
  int4_in : string -> option Z; (* the store's text input of integer values *)
  clock : Z;                    (* the store's CURRENT_TIMESTAMP / NOW() *)
  up : bool;                    (* the store answers; when false, every
                                   statement fails at once (connection
                                   refused); a store that stalls is not
                                   modelled *)
  log : list Stmt               (* statements received, oldest first *)
}.

(** A SERIAL column's sequence starts at 1. *)
Definition seq_start : Z := 1.

Definition logged (s : Stmt) (db : DB) : DB :=
  mkDB (tbl db) (seq db) (pm_default db) (cd_default db) (int4_in db) (clock db) (up db)
       (log db ++ [s])%list.

Definition with_rows (rows : list Row) (next : Z) (db : DB) : DB :=
  mkDB rows next (pm_default db) (cd_default db) (int4_in db) (clock db) (up db) (log db).

Definition conn_error : string := "driver: bad connection".

Definition int4_min : Z := - 2 ^ 31.
Definition int4_max : Z := 2 ^ 31 - 1.

(** PostgreSQL's [int4in] from version 16 on, which a concrete store of the
    examples uses: blanks (C [isspace]) around the number, an optional
    sign, then decimal digits, or [0x]/[0o]/[0b] (either case) and digits
    of that base; a single underscore may separate two digits.  Earlier
    versions accept the blanks and the sign but neither the prefixes nor
    the underscores, which is why the store's input is a field of [DB]. *)
Definition is_pg_space (c : ascii) : bool :=
  let n := nat_of_ascii c in (n =? 32)%nat || ((9 <=? n)%nat && (n <=? 13)%nat).

Fixpoint skip_spaces (s : string) : string :=
  match s with
  | String c rest => if is_pg_space c then skip_spaces rest else s
  | EmptyString => s
  end.

Definition digit_in (base : Z) (c : ascii) : option Z :=
  let n := Z.of_nat (nat_of_ascii c) in
  let v := if (48 <=? n) && (n <=? 57) then Some (n - 48)
           else if (97 <=? n) && (n <=? 102) then Some (n - 87)
           else if (65 <=? n) && (n <=? 70) then Some (n - 55)
           else None in
  match v with
  | Some d => if d <? base then Some d else None
  | None => None
  end.

(** The digit loop: the value read, whether a digit was read, and the rest
    of the text; [None] when an underscore is not followed by a digit. *)
Fixpoint read_digits (base : Z) (s : string) (acc : Z) (seen : bool)
    : option (Z * bool * string) :=
  match s with
  | EmptyString => Some (acc, seen, s)
  | String c rest =>
      match digit_in base c with
      | Some d => read_digits base rest (acc * base + d) true
      | None =>
          if seen && Ascii.eqb c "_"%char then
            match rest with
            | String c' _ =>
                match digit_in base c' with
                | Some _ => read_digits base rest acc seen
                | None => None
                end
            | EmptyString => None
            end
          else Some (acc, seen, s)
      end
  end.

Definition pg_int4_in (s : string) : option Z :=
  let '(neg, s1) :=
    match skip_spaces s with
    | String "-"%char r => (true, r)
    | String "+"%char r => (false, r)
    | t => (false, t)
    end in
  let '(base, s2) :=
    match s1 with
    | String "0"%char (String c r) =>
        if Ascii.eqb c "x"%char || Ascii.eqb c "X"%char then (16, r)
        else if Ascii.eqb c "o"%char || Ascii.eqb c "O"%char then (8, r)
        else if Ascii.eqb c "b"%char || Ascii.eqb c "B"%char then (2, r)
        else (10, s1)
    | _ => (10, s1)
    end in
  match read_digits base s2 0 false with
  | Some (v, true, rest) =>
      match skip_spaces rest with
      | EmptyString =>
          let n := if neg then - v else v in
          if (int4_min <=? n) && (n <=? int4_max) then Some n else None
      | String _ _ => None
      end
  | _ => None
  end.

(** A parameter compared with the integer column [sale_id]: text goes
    through the store's input function [int4_in]. *)
Definition param_int4 (int4_in : string -> option Z) (v : SqlVal) : result Z :=
  match v with
  | SText s =>
      match int4_in s with
      | Some n => Ok n
      | None => Err ("pq: invalid input syntax for type integer: " ++ s)
      end
  | SInt n =>
      if (int4_min <=? n) && (n <=? int4_max) then Ok n
      else Err "pq: value out of range for type integer"
  | _ => Err "pq: invalid input for type integer"
  end.

(** [SELECT ... FROM sales ORDER BY created_date DESC [LIMIT n]]. *)
Definition exec_select (limit : option nat) (db : DB) : result (list Row) * DB :=
  let db' := logged (StmtSelect limit) db in
  if up db then
    let sorted := order_by_created_desc (tbl db) in
    (Ok (match limit with None => sorted | Some n => firstn n sorted end), db')
  else (Err conn_error, db').

(** [INSERT INTO sales (...) VALUES (...)]: [mk] builds the new row from the
    value [nextval] gives [sale_id] and the store's state, or rejects the
    values.  A rejected insert leaves rows and sequence as they were. *)
Definition exec_insert (mk : Z -> DB -> result Row) (db : DB) : result unit * DB :=
  let db' := logged StmtInsert db in
  if up db then
    match mk (seq db) db with
    | Ok r => (Ok tt, with_rows (tbl db ++ [r])%list (seq db + 1) db')
    | Err e => (Err e, db')
    end
  else (Err conn_error, db').

(** [DELETE FROM sales WHERE sale_id=$1]. *)
Definition exec_delete (arg : SqlVal) (db : DB) : result unit * DB :=
  let db' := logged (StmtDelete arg) db in
  if up db then
    match param_int4 (int4_in db) arg with
    | Ok k =>
        (Ok tt, with_rows (filter (fun r => negb (Z.eqb (sale_id r) k)) (tbl db))
                          (seq db') db')
    | Err e => (Err e, db')
    end
  else (Err conn_error, db').

(** [TRUNCATE TABLE sales RESTART IDENTITY]. *)
Definition exec_truncate (db : DB) : result unit * DB :=
  let db' := logged StmtTruncate db in
  if up db then (Ok tt, with_rows [] seq_start db') else (Err conn_error, db').

(** Range checks the store applies to the numeric columns on insert:
    [quantity INT] and [price NUMERIC(10,2)]. *)
Definition check_numbers (q p : Z) : option string :=
  if negb ((int4_min <=? q) && (q <=? int4_max)) then
    Some "pq: value out of range for type integer"
  else if negb (Z.abs p <? 10 ^ 8) then Some "pq: numeric field overflow"
  else None.

(** NOW() AT TIME ZONE 'Asia/Kolkata': the wall-clock time at UTC+05:30. *)
Definition ist_wall (t : Z) : Z := t + 19800.

(** ** Requests and responses (net/http) *)

Record Req : Type := mkReq {
  method : string;
  path : string;
  query : list (string * string);
  body : Body
}.

Inductive RespBody : Type :=
| RText (s : string)    (* bytes written with w.Write or http.Error *)
| RJson (v : JVal).     (* what json.NewEncoder(w).Encode(v) writes *)

Record Resp : Type := mkResp {
  status : Z;
  resp_body : RespBody
}.

(** [http.Error(w, msg, code)]. *)
Definition http_error (msg : string) (code : Z) : Resp := mkResp code (RText (msg ++ "
")).

(** A handler that returns having written nothing. *)
Definition empty_ok : Resp := mkResp 200 (RText "").

Definition encode_ok (v : JVal) : Resp := mkResp 200 (RJson v).

Definition message (m : string) : JVal := JObj [("message", JStr m)].

Definition dq : string := String (ascii_of_nat 34) EmptyString.

(** ** Scanning result rows (database/sql [Rows.Scan]) *)

Definition null_error (go : string) : string :=
  "sql: Scan error: converting NULL to " ++ go ++ " is unsupported".

(** [convertAssign] for the column and destination kinds the queries of
    this repository pair; any other pairing is refused. *)
Definition scan_col (c : SqlVal) (dest : GoVal) : result GoVal :=
  match c, dest with
  | SNull, GInt _ => Err (null_error "int")
  | SNull, GFloat _ => Err (null_error "float64")
  | SNull, GStr _ => Err (null_error "string")
  | SNull, GTime _ => Err (null_error "time.Time")
  | SInt n, GInt _ => Ok (GInt n)
  | SInt n, GFloat _ => Ok (GFloat n)
  | SNum n, GFloat _ => Ok (GFloat n)
  | SText s, GStr _ => Ok (GStr s)
  | STime t, GTime _ => Ok (GTime t)
  | _, _ => Err "sql: Scan error: unsupported Scan"
  end.

(** [rows.Scan(&dest1, ...)]: columns are assigned in order; the first
    failing one stops the scan, leaving the earlier fields assigned. *)
Fixpoint scan_into (dests : list string) (cols : list SqlVal) (st : GoStruct)
    : GoStruct * option string :=
  match dests, cols with
  | [], [] => (st, None)
  | d :: ds, c :: cs =>
      match lookup d st with
      | None => (st, Some "sql: Scan error: unsupported Scan")
      | Some cur =>
          match scan_col c cur with
          | Ok v => scan_into ds cs (set_field d v st)
          | Err e => (st, Some e)
          end
      end
  | _, _ => (st, Some "sql: expected destination arguments in Scan")
  end.

Definition col_text (o : option string) : SqlVal :=
  match o with Some s => SText s | None => SNull end.
Definition col_int (o : option Z) : SqlVal :=
  match o with Some n => SInt n | None => SNull end.
Definition col_num (o : option Z) : SqlVal :=
  match o with Some n => SNum n | None => SNull end.
Definition col_time (o : option Z) : SqlVal :=
  match o with Some t => STime t | None => SNull end.

(** The [for rows.Next() { ... }] loop: [checked] is whether the loop
    returns on a Scan error; [sales] is the slice being appended to. *)
Fixpoint scan_rows (scan : Row -> GoStruct * option string) (checked : bool)
    (rows : list Row) (sales : option (list GoStruct))
    : option (list GoStruct) + string :=
  match rows with
  | [] => inl sales
  | r :: rest =>
      let '(s, err) := scan r in
      match err with
      | Some e => if checked then inr e else scan_rows scan checked rest (go_append sales s)
      | None => scan_rows scan checked rest (go_append sales s)
      end
  end.

(** ** src/main.go, lines 1-183 *)
Module MainV1.

Definition Sale : GoStruct :=
  [("saleId", GInt 0); ("customerName", GStr ""); ("productName", GStr "");
   ("cell", GStr ""); ("warranty", GStr ""); ("quantity", GInt 0);
   ("price", GFloat 0); ("paymentMethod", GStr ""); ("createdDate", GStr "")].

(** One row: eight columns into the struct, [created_date] into the local
    [created], then [s.CreatedDate = created.Format(time.RFC3339)]. *)
Definition scan_sale (rt : Runtime) (r : Row) : GoStruct * option string :=
  let '(s, err) :=
    scan_into ["saleId"; "customerName"; "productName"; "cell"; "warranty";
               "quantity"; "price"; "paymentMethod"]
              [SInt (sale_id r); col_text (customer_name r); col_text (product_name r);
               col_text (cell r); col_text (warranty r); col_int (quantity r);
               col_num (price r); col_text (payment_method r)] Sale in
  match err with
  | Some e => (s, Some e)
  | None =>
      match scan_col (col_time (created_date r)) (GTime zero_time) with
      | Ok (GTime t) => (set_field "createdDate" (GStr (format_rfc3339 rt t)) s, None)
      | Ok _ => (s, Some "sql: Scan error: unsupported Scan")
      | Err e => (s, Some e)
      end
  end.

Definition getSales (rt : Runtime) (r : Req) (db : DB) : Resp * DB :=
  match exec_select None db with
  | (Err e, db') => (http_error e 500, db')
  | (Ok rows, db') =>
      match scan_rows (scan_sale rt) true rows None with
      | inl sales => (encode_ok (encode_slice rt sales), db')
      | inr e => (http_error e 500, db')
      end
  end.

(** The INSERT with [CASE WHEN $8 = '' THEN CURRENT_TIMESTAMP
    ELSE $8::timestamp END] for [created_date]. *)
Definition insert_row (rt : Runtime) (sale : GoStruct) (id : Z) (db : DB) : result Row :=
  let q := get_int "quantity" sale in
  let p := get_float "price" sale in
  let cd := get_str "createdDate" sale in
  match check_numbers q p with
  | Some e => Err e
  | None =>
      match (if String.eqb cd "" then Some (clock db) else pg_timestamp rt cd) with
      | None => Err ("pq: invalid input syntax for type timestamp: " ++ cd)
      | Some t =>
          Ok (mkRow id (Some (get_str "customerName" sale)) (Some (get_str "productName" sale))
                    (Some (get_str "cell" sale)) (Some (get_str "warranty" sale))
                    (Some q) (Some p) (Some (get_str "paymentMethod" sale)) (Some t))
      end
  end.

(** The decode error is discarded: [json.NewDecoder(r.Body).Decode(&sale)]
    is a statement of its own. *)
Definition createSale (rt : Runtime) (r : Req) (db : DB) : Resp * DB :=
  let sale := fst (decode rt Sale (body r)) in
  match exec_insert (insert_row rt sale) db with
  | (Err e, db') => (http_error e 500, db')
  | (Ok _, db') =>
      (mkResp 200 (RText ("{" ++ dq ++ "status" ++ dq ++ ":" ++ dq ++ "ok" ++ dq ++ "}")), db')
  end.

Definition delete_prefix : string := "/sales/delete/".

(** [id := r.URL.Path[len("/sales/delete/"):]], passed as text. *)
Definition deleteSale (r : Req) (db : DB) : Resp * DB :=
  let n := String.length delete_prefix in
  let id := substring n (String.length (path r) - n) (path r) in
  match exec_delete (SText id) db with
  | (Err e, db') => (http_error e 500, db')
  | (Ok _, db') =>
      (mkResp 200 (RText ("{" ++ dq ++ "deleted" ++ dq ++ ":" ++ dq ++ "ok" ++ dq ++ "}")), db')
  end.

End MainV1.

(** ** src/main.go, lines 185-358 *)
Module MainV2.

Definition Sale : GoStruct :=
  [("saleId", GInt 0); ("customerName", GStr ""); ("productName", GStr "");
   ("quantity", GInt 0); ("price", GFloat 0); ("createdDate", GTime zero_time)].

Definition scan_sale (r : Row) : GoStruct * option string :=
  scan_into ["saleId"; "customerName"; "productName"; "quantity"; "price"; "createdDate"]
            [SInt (sale_id r); col_text (customer_name r); col_text (product_name r);
             col_int (quantity r); col_num (price r); col_time (created_date r)] Sale.

Definition json_error (e : string) : Resp := mkResp 500 (RJson (JObj [("error", JStr e)])).

(** [LIMIT 100]; [sales := make([]Sale, 0)]. *)
Definition getSales (rt : Runtime) (r : Req) (db : DB) : Resp * DB :=
  match exec_select (Some 100%nat) db with
  | (Err e, db') => (json_error e, db')
  | (Ok rows, db') =>
      match scan_rows scan_sale true rows (Some []) with
      | inl sales => (encode_ok (encode_slice rt sales), db')
      | inr e => (json_error e, db')
      end
  end.

(** Four columns: [payment_method] and [created_date] take their defaults. *)
Definition insert_row (sale : GoStruct) (id : Z) (db : DB) : result Row :=
  let q := get_int "quantity" sale in
  let p := get_float "price" sale in
  match check_numbers q p with
  | Some e => Err e
  | None =>
      Ok (mkRow id (Some (get_str "customerName" sale)) (Some (get_str "productName" sale))
                None None (Some q) (Some p) (pm_default db) (cd_default db (clock db)))
  end.

Definition createSale (rt : Runtime) (r : Req) (db : DB) : Resp * DB :=
  if String.eqb (method r) "OPTIONS" then (empty_ok, db) else
  if negb (String.eqb (method r) "POST") then (http_error "Method not allowed" 405, db) else
  match decode rt Sale (body r) with
  | (_, Some e) => (http_error e 400, db)
  | (sale, None) =>
      match exec_insert (insert_row sale) db with
      | (Err e, db') => (http_error e 500, db')
      | (Ok _, db') => (encode_ok (message "Sale added successfully"), db')
      end
  end.

End MainV2.

(** The struct of part_000 and part_004. *)
Definition SalePM : GoStruct :=
  [("saleId", GInt 0); ("customerName", GStr ""); ("productName", GStr "");
   ("quantity", GInt 0); ("price", GFloat 0); ("paymentMethod", GStr "");
   ("createdDate", GTime zero_time)].

(** Their seven-column scan. *)
Definition scan_sale_pm (r : Row) : GoStruct * option string :=
  scan_into ["saleId"; "customerName"; "productName"; "quantity"; "price";
             "paymentMethod"; "createdDate"]
            [SInt (sale_id r); col_text (customer_name r); col_text (product_name r);
             col_int (quantity r); col_num (price r); col_text (payment_method r);
             col_time (created_date r)] SalePM.

(** Their INSERT of five parameters and a [created_date] value [t]:
    [payment_method] is always listed, so its column DEFAULT never applies. *)
Definition insert_row_pm (sale : GoStruct) (t : Z) (id : Z) (db : DB) : result Row :=
  let q := get_int "quantity" sale in
  let p := get_float "price" sale in
  match check_numbers q p with
  | Some e => Err e
  | None =>
      Ok (mkRow id (Some (get_str "customerName" sale)) (Some (get_str "productName" sale))
                None None (Some q) (Some p) (Some (get_str "paymentMethod" sale)) (Some t))
  end.

(** ** src/unnamed/part_000 *)
Module Part000.

Definition getSales (rt : Runtime) (r : Req) (db : DB) : Resp * DB :=
  match exec_select None db with
  | (Err e, db') => (http_error e 500, db')
  | (Ok rows, db') =>
      match scan_rows scan_sale_pm true rows None with
      | inl sales => (encode_ok (encode_slice rt sales), db')
      | inr e => (http_error e 500, db')
      end
  end.

(** [created_date] is [NOW() AT TIME ZONE 'Asia/Kolkata'], on the store. *)
Definition createSale (rt : Runtime) (r : Req) (db : DB) : Resp * DB :=
  if negb (String.eqb (method r) "POST") then (http_error "Method not allowed" 405, db) else
  match decode rt SalePM (body r) with
  | (_, Some e) => (http_error e 400, db)
  | (sale, None) =>
      match exec_insert (fun id db => insert_row_pm sale (ist_wall (clock db)) id db) db with
      | (Err e, db') => (http_error e 500, db')
      | (Ok _, db') => (encode_ok (message "Sale added"), db')
      end
  end.

Definition DeleteReq : GoStruct := [("saleId", GInt 0)].

Definition deleteSale (rt : Runtime) (r : Req) (db : DB) : Resp * DB :=
  if negb (String.eqb (method r) "POST") then (http_error "Method not allowed" 405, db) else
  match decode rt DeleteReq (body r) with
  | (_, Some e) => (http_error e 400, db)
  | (req, None) =>
      match exec_delete (SInt (get_int "saleId" req)) db with
      | (Err e, db') => (http_error e 500, db')
      | (Ok _, db') => (encode_ok (message "Sale deleted successfully"), db')
      end
  end.

End Part000.

(** ** src/unnamed/part_001 *)
Module Part001.

Definition scan_sale (r : Row) : GoStruct * option string := MainV2.scan_sale r.

(** The value returned by [rows.Scan] is dropped: [s] is appended as the
    scan left it. *)
Definition getSales (rt : Runtime) (r : Req) (db : DB) : Resp * DB :=
  match exec_select None db with
  | (Err e, db') => (http_error e 500, db')
  | (Ok rows, db') =>
      match scan_rows scan_sale false rows None with
      | inl sales => (encode_ok (encode_slice rt sales), db')
      | inr e => (http_error e 500, db')
      end
  end.

(** Four columns, as in the second revision of main.go: the struct has no
    [PaymentMethod], [payment_method] and [created_date] take their
    column defaults. *)
Definition createSale (rt : Runtime) (r : Req) (db : DB) : Resp * DB :=
  if String.eqb (method r) "OPTIONS" then (empty_ok, db) else
  if negb (String.eqb (method r) "POST") then (http_error "Method not allowed" 405, db) else
  match decode rt MainV2.Sale (body r) with
  | (_, Some e) => (http_error e 400, db)
  | (sale, None) =>
      match exec_insert (MainV2.insert_row sale) db with
      | (Err e, db') => (http_error e 500, db')
      | (Ok _, db') => (encode_ok (message "Sale added successfully"), db')
      end
  end.

End Part001.

(** ** src/unnamed/part_004 *)
Module Part004.

(** [LIMIT 500]; [sales := []Sale{}]. *)
Definition getSales (rt : Runtime) (r : Req) (db : DB) : Resp * DB :=
  match exec_select (Some 500%nat) db with
  | (Err e, db') => (http_error e 500, db')
  | (Ok rows, db') =>
      match scan_rows scan_sale_pm true rows (Some []) with
      | inl sales => (encode_ok (encode_slice rt sales), db')
      | inr e => (http_error e 500, db')
      end
  end.

(** [istNow := time.Now().In(IST)] is read on the server ([now]); the
    decoded [CreatedDate] is not used. *)
Definition createSale (rt : Runtime) (now : Z) (r : Req) (db : DB) : Resp * DB :=
  if String.eqb (method r) "OPTIONS" then (empty_ok, db) else
  if negb (String.eqb (method r) "POST") then (http_error "Method not allowed" 405, db) else
  match decode rt SalePM (body r) with
  | (_, Some e) => (http_error e 400, db)
  | (sale, None) =>
      match exec_insert (insert_row_pm sale (ist_wall now)) db with
      | (Err e, db') => (http_error e 500, db')
      | (Ok _, db') => (encode_ok (message "Sale added successfully"), db')
      end
  end.

Definition resetSales (r : Req) (db : DB) : Resp * DB :=
  if negb (String.eqb (method r) "POST") then (http_error "Method not allowed" 405, db) else
  match exec_truncate db with
  | (Err e, db') => (http_error e 500, db')
  | (Ok _, db') => (encode_ok (message "All sales deleted & ID reset"), db')
  end.

End Part004.

(** ** Reading a listing back *)

Fixpoint jlookup (k : string) (kvs : list (string * JVal)) : option JVal :=
  match kvs with
  | [] => None
  | (g, v) :: rest => if String.eqb k g then Some v else jlookup k rest
  end.

Definition json_sale_id (v : JVal) : option Z :=
  match v with
  | JObj kvs => match jlookup "saleId" kvs with Some (JNum n) => Some n | _ => None end
  | _ => None
  end.

(** The [saleId] of every element of a JSON array response, in order. *)
Definition listed_ids (b : RespBody) : list (option Z) :=
  match b with
  | RJson (JArr xs) => map json_sale_id xs
  | _ => []
  end.


(** The store's id discipline: ids in the table are distinct, and all below
    the value the sequence hands out next. *)
Definition ids_ok (db : DB) : Prop :=
  NoDup (map sale_id (tbl db)) /\ Forall (fun x => sale_id x < seq db) (tbl db).

(** Going from [db] to [db'], the sequence has not gone back, and every
    row of [db'] was already in [db] or has an id the sequence had not
    reached in [db]. *)
Definition fresh_ids (db db' : DB) : Prop :=
  seq db <= seq db' /\ forall x, In x (tbl db') -> In x (tbl db) \/ seq db <= sale_id x.

(** Neither the rows nor the sequence have changed. *)
Definition same_rows (db db' : DB) : Prop := tbl db' = tbl db /\ seq db' = seq db.

Definition slice_list {A} (s : option (list A)) : list A :=
  match s with None => [] | Some l => l end.

Definition apply_limit (limit : option nat) (rows : list Row) : list Row :=
  match limit with None => rows | Some n => firstn n rows end.

(** ** Concrete inputs *)

(** A runtime that knows one timestamp text, 2024-01-10T00:00:00Z. *)
Definition rt_example : Runtime :=
  mkRuntime (fun s => if String.eqb s "2024-01-10T00:00:00Z" then Some 1704844800 else None)
            (fun _ => "2024-01-10T00:00:00Z") (fun _ => "2024-01-10T00:00:00Z")
            (fun s => if String.eqb s "2024-01-10T00:00:00Z" then Some 1704844800 else None).

(** A reachable store holding [rows], with the schema of part_004
    ([created_date] defaults to CURRENT_TIMESTAMP) and the integer input
    of PostgreSQL 16. *)
Definition db_with (rows : list Row) : DB :=
  mkDB rows (1 + Z.of_nat (length rows)) (Some "CASH") (fun c => Some c) pg_int4_in
       1760000000 true [].

(** A row as the first revision of main.go inserts it. *)
Definition row_v1 (id t : Z) : Row :=
  mkRow id (Some "Asha") (Some "Watch") (Some "") (Some "") (Some 2) (Some 499)
        (Some "UPI") (Some t).

(** A row whose [customer_name] is NULL, which [Scan] cannot put in a
    Go string. *)
Definition row_null_name (id t : Z) : Row :=
  mkRow id None (Some "Watch") None None (Some 1) (Some 10) None (Some t).

Definition get_req (q : list (string * string)) : Req := mkReq "GET" "/sales" q BodyEmpty.

Definition post_req (b : Body) : Req := mkReq "POST" "/sales/create" [] b.

Definition delete_req (k : Z) : Req :=
  mkReq "POST" "/sales/delete" [] (BodyJson (JObj [("saleId", JNum k)])).

Definition asha_body : list (string * JVal) :=
  [("customerName", JStr "Asha"); ("productName", JStr "Watch");
   ("quantity", JNum 2); ("price", JNum 499)].

(** ** Generic facts *)

Lemma lookup_set_field_same (f : string) (v cur : GoVal) (st : GoStruct) :
  lookup f st = Some cur -> lookup f (set_field f v st) = Some v.
Proof.
  induction st as [|[g w] rest IH]; simpl; [discriminate|].
  destruct (String.eqb f g) eqn:E; simpl; rewrite E; auto.
Qed.

Lemma lookup_set_field_other (f g : string) (v : GoVal) (st : GoStruct) :
  f <> g -> lookup f (set_field g v st) = lookup f st.
Proof.
  intros Hne; induction st as [|[h w] rest IH]; simpl; auto.
  destruct (String.eqb g h) eqn:E; simpl.
  - apply String.eqb_eq in E; subst h.
    destruct (String.eqb f g) eqn:E'; auto.
    apply String.eqb_eq in E'; contradiction.
  - destruct (String.eqb f h); auto.
Qed.

Lemma scan_into_keeps (f : string) (dests : list string) (cols : list SqlVal)
    (st : GoStruct) :
  ~ In f dests -> lookup f (fst (scan_into dests cols st)) = lookup f st.
Proof.
  revert cols st; induction dests as [|d ds IH]; intros cols st Hnin;
    destruct cols as [|c cs]; simpl; auto.
  destruct (lookup d st) as [cur|]; simpl; auto.
  destruct (scan_col c cur); simpl; auto.
  rewrite IH by (intros H; apply Hnin; right; exact H).
  apply lookup_set_field_other; intros ->; apply Hnin; left; reflexivity.
Qed.

(** Whatever else a scan does, the [saleId] column, scanned first, is set. *)
Lemma scan_into_sale_id (ds : list string) (cs : list SqlVal) (st : GoStruct) (id n : Z) :
  lookup "saleId" st = Some (GInt n) -> ~ In "saleId" ds ->
  lookup "saleId" (fst (scan_into ("saleId" :: ds) (SInt id :: cs) st)) = Some (GInt id).
Proof.
  intros Hst Hnin; simpl; rewrite Hst; simpl.
  rewrite scan_into_keeps by exact Hnin.
  eapply lookup_set_field_same; exact Hst.
Qed.

Lemma json_sale_id_encode (rt : Runtime) (st : GoStruct) (n : Z) :
  lookup "saleId" st = Some (GInt n) -> json_sale_id (encode_struct rt st) = Some n.
Proof.
  unfold json_sale_id, encode_struct; induction st as [|[g w] rest IH];
    cbn [lookup map jlookup]; [discriminate|].
  destruct (String.eqb "saleId" g); [intros H; inversion H; reflexivity|exact IH].
Qed.

Lemma slice_list_go_append {A} (s : option (list A)) (x : A) :
  slice_list (go_append s x) = (slice_list s ++ [x])%list.
Proof. destruct s; reflexivity. Qed.

Section ScanRows.

Variable rt : Runtime.
Variable scan : Row -> GoStruct * option string.
Hypothesis scan_sets_id : forall r, lookup "saleId" (fst (scan r)) = Some (GInt (sale_id r)).

Lemma scan_rows_ids (checked : bool) (rows : list Row) (init out : option (list GoStruct)) :
  scan_rows scan checked rows init = inl out ->
  map json_sale_id (map (encode_struct rt) (slice_list out))
  = (map json_sale_id (map (encode_struct rt) (slice_list init))
     ++ map (fun r => Some (sale_id r)) rows)%list.
Proof.
  revert init; induction rows as [|r rest IH]; intros init H; simpl in H.
  - inversion H; subst; rewrite app_nil_r; reflexivity.
  - pose proof (scan_sets_id r) as Hr.
    destruct (scan r) as [s err]; simpl in Hr.
    assert (Hstep : scan_rows scan checked rest (go_append init s) = inl out ->
              map json_sale_id (map (encode_struct rt) (slice_list out)) =
              (map json_sale_id (map (encode_struct rt) (slice_list init)) ++
               map (fun r0 => Some (sale_id r0)) (r :: rest))%list).
    { intros H'; rewrite (IH _ H'), slice_list_go_append, !map_app, <- app_assoc.
      cbn [map app]; rewrite (json_sale_id_encode rt s (sale_id r) Hr); reflexivity. }
    destruct err as [e|]; [destruct checked; [discriminate|]|]; exact (Hstep H).
Qed.

End ScanRows.

Lemma scan_rows_fresh_ids (rt : Runtime) (scan : Row -> GoStruct * option string)
    (checked : bool) (rows : list Row) (init out : option (list GoStruct)) :
  (forall r, lookup "saleId" (fst (scan r)) = Some (GInt (sale_id r))) ->
  slice_list init = [] ->
  scan_rows scan checked rows init = inl out ->
  map json_sale_id (map (encode_struct rt) (slice_list out)) = map (fun r => Some (sale_id r)) rows.
Proof.
  intros Hs Hi H; rewrite (scan_rows_ids rt scan Hs checked rows init out H), Hi; reflexivity.
Qed.

Lemma exec_select_rows (limit : option nat) (db db' : DB) (rows : list Row) :
  exec_select limit db = (Ok rows, db') ->
  rows = apply_limit limit (order_by_created_desc (tbl db)).
Proof.
  unfold exec_select; destruct (up db); intros H; inversion H; destruct limit; reflexivity.
Qed.

Lemma order_by_created_desc_sorted (rows : list Row) :
  Sorted (fun a b => RowDesc.leb a b = true) (order_by_created_desc rows).
Proof. apply RowSort.Sorted_sort. Qed.

Lemma order_by_created_desc_perm (rows : list Row) :
  Permutation rows (order_by_created_desc rows).
Proof. apply RowSort.Permuted_sort. Qed.

Lemma scan_sale_pm_id (r : Row) :
  lookup "saleId" (fst (scan_sale_pm r)) = Some (GInt (sale_id r)).
Proof. apply (scan_into_sale_id _ _ _ _ 0); [reflexivity|simpl; intuition discriminate]. Qed.

Lemma MainV2_scan_sale_id (r : Row) :
  lookup "saleId" (fst (MainV2.scan_sale r)) = Some (GInt (sale_id r)).
Proof. apply (scan_into_sale_id _ _ _ _ 0); [reflexivity|simpl; intuition discriminate]. Qed.

Lemma MainV1_scan_sale_id (rt : Runtime) (r : Row) :
  lookup "saleId" (fst (MainV1.scan_sale rt r)) = Some (GInt (sale_id r)).
Proof.
  unfold MainV1.scan_sale.
  pose proof (scan_into_sale_id ["customerName"; "productName"; "cell"; "warranty";
               "quantity"; "price"; "paymentMethod"]
              [col_text (customer_name r); col_text (product_name r);
               col_text (cell r); col_text (warranty r); col_int (quantity r);
               col_num (price r); col_text (payment_method r)] MainV1.Sale (sale_id r) 0
              eq_refl) as H.
  destruct (scan_into _ _ MainV1.Sale) as [s err] eqn:E; simpl in H.
  specialize (H ltac:(simpl; intuition discriminate)).
  destruct err; simpl; auto.
  destruct (scan_col (col_time (created_date r)) (GTime zero_time)) as [[]|]; simpl; auto.
  rewrite lookup_set_field_other by discriminate; exact H.
Qed.

Lemma listed_ids_encode_slice (rt : Runtime) (s : option (list GoStruct)) :
  listed_ids (RJson (encode_slice rt s)) = map json_sale_id (map (encode_struct rt) (slice_list s)).
Proof. destruct s; reflexivity. Qed.

(** What each revision's [GET /sales] lists: on success the ids of the
    ordered (and limited) rows, otherwise an error response listing none. *)
Ltac listing_tac scan_id :=
  intros;
  match goal with |- context [exec_select ?lim ?db] =>
    destruct (exec_select lim db) as [[rows|e] db'] eqn:E; cbn [fst resp_body status encode_ok];
    [ match goal with |- context [scan_rows ?sc ?ch rows ?init] =>
        destruct (scan_rows sc ch rows init) as [out|e] eqn:S; cbn [fst resp_body status encode_ok];
        [ left; rewrite listed_ids_encode_slice;
          rewrite (scan_rows_fresh_ids _ sc ch rows init out scan_id eq_refl S);
          rewrite (exec_select_rows _ _ _ _ E); reflexivity
        | right; split; reflexivity ]
      end
    | right; split; reflexivity ]
  end.

Lemma MainV1_getSales_listing (rt : Runtime) (r : Req) (db : DB) :
  listed_ids (resp_body (fst (MainV1.getSales rt r db)))
    = map (fun x => Some (sale_id x)) (order_by_created_desc (tbl db))
  \/ (status (fst (MainV1.getSales rt r db)) = 500
      /\ listed_ids (resp_body (fst (MainV1.getSales rt r db))) = []).
Proof. unfold MainV1.getSales; listing_tac (MainV1_scan_sale_id rt). Qed.

Lemma Part000_getSales_listing (rt : Runtime) (r : Req) (db : DB) :
  listed_ids (resp_body (fst (Part000.getSales rt r db)))
    = map (fun x => Some (sale_id x)) (order_by_created_desc (tbl db))
  \/ (status (fst (Part000.getSales rt r db)) = 500
      /\ listed_ids (resp_body (fst (Part000.getSales rt r db))) = []).
Proof. unfold Part000.getSales; listing_tac scan_sale_pm_id. Qed.

Lemma MainV2_getSales_listing (rt : Runtime) (r : Req) (db : DB) :
  listed_ids (resp_body (fst (MainV2.getSales rt r db)))
    = map (fun x => Some (sale_id x)) (firstn 100 (order_by_created_desc (tbl db)))
  \/ (status (fst (MainV2.getSales rt r db)) = 500
      /\ listed_ids (resp_body (fst (MainV2.getSales rt r db))) = []).
Proof. unfold MainV2.getSales; listing_tac MainV2_scan_sale_id. Qed.

Lemma Part001_getSales_listing (rt : Runtime) (r : Req) (db : DB) :
  listed_ids (resp_body (fst (Part001.getSales rt r db)))
    = map (fun x => Some (sale_id x)) (order_by_created_desc (tbl db))
  \/ (status (fst (Part001.getSales rt r db)) = 500
      /\ listed_ids (resp_body (fst (Part001.getSales rt r db))) = []).
Proof. unfold Part001.getSales; listing_tac MainV2_scan_sale_id. Qed.

Lemma Part004_getSales_listing (rt : Runtime) (r : Req) (db : DB) :
  listed_ids (resp_body (fst (Part004.getSales rt r db)))
    = map (fun x => Some (sale_id x)) (firstn 500 (order_by_created_desc (tbl db)))
  \/ (status (fst (Part004.getSales rt r db)) = 500
      /\ listed_ids (resp_body (fst (Part004.getSales rt r db))) = []).
Proof. unfold Part004.getSales; listing_tac scan_sale_pm_id. Qed.

Lemma exec_insert_log (mk : Z -> DB -> result Row) (db : DB) :
  log (snd (exec_insert mk db)) = (log db ++ [StmtInsert])%list.
Proof.
  unfold exec_insert; destruct (up db); [destruct (mk (seq db) db)|]; reflexivity.
Qed.

Lemma exec_delete_log (v : SqlVal) (db : DB) :
  log (snd (exec_delete v db)) = (log db ++ [StmtDelete v])%list.
Proof.
  unfold exec_delete; destruct (up db); [destruct (param_int4 (int4_in db) v)|]; reflexivity.
Qed.

Lemma log_grows {A} (l : list A) (x : A) : (l ++ [x])%list <> l.
Proof.
  intros H; apply (f_equal (@length A)) in H; rewrite length_app in H; simpl in H; lia.
Qed.

(** The sibling revision part_000 refuses an undecodable body with 400 and
    leaves the store untouched. *)
Lemma Part000_createSale_decode_error (rt : Runtime) (r : Req) (db : DB) (e : string) :
  method r = "POST" -> snd (decode rt SalePM (body r)) = Some e ->
  Part000.createSale rt r db = (http_error e 400, db).
Proof.
  intros Hm He; unfold Part000.createSale; rewrite Hm; cbn [String.eqb negb].
  destruct (decode rt SalePM (body r)) as [s err]; cbn [snd] in He; subst err; reflexivity.
Qed.

(** ** Claims *)

(** C1 (code_bug).  The first revision of main.go discards the error of
    [json.NewDecoder(r.Body).Decode(&sale)]: a POST /sales/create whose
    body is not JSON is answered 200 and inserts a row built from the zero
    [Sale], where the claim (and the sibling revisions, see
    [Part000_createSale_decode_error]) answer 400 and insert nothing. *)
Theorem C1_mainv1_create_ignores_decode_error (rt : Runtime) (db : DB) (msg : string) :
  up db = true ->
  let '(resp, db') := MainV1.createSale rt (post_req (BodySyntax msg)) db in
  status resp = 200 /\ length (tbl db') = S (length (tbl db)).
Proof.
  intros Hup; unfold MainV1.createSale, exec_insert; rewrite Hup.
  cbn -[length]; split; [reflexivity|].
  rewrite length_app; simpl; lia.
Qed.

Lemma C1_witness :
  up (db_with []) = true /\
  (let '(resp, db') := MainV1.createSale rt_example
                          (post_req (BodySyntax "invalid character 'x' looking for beginning of value"))
                          (db_with []) in
   status resp = 200 /\ length (tbl db') = S (length (tbl (db_with [])))).
Proof.
  split; [reflexivity|].
  apply (C1_mainv1_create_ignores_decode_error rt_example (db_with [])
           "invalid character 'x' looking for beginning of value"); reflexivity.
Defined.

(** C2 (corrected), counterexample.  The first revision of main.go checks
    no method: a GET on /sales/delete/1 deletes row 1 and answers 200. *)
Lemma C2_mainv1_get_deletes :
  let '(resp, db') := MainV1.deleteSale (mkReq "GET" "/sales/delete/1" [] BodyEmpty)
                                        (db_with [row_v1 1 1704844800]) in
  status resp = 200 /\ tbl db' = [].
Proof. vm_compute; split; reflexivity. Qed.

(** C2 (corrected).  In the revisions that check the method (part_000's
    createSale and deleteSale, the second createSale of main.go, part_004's
    createSale and resetSales), a request whose method is neither POST nor
    OPTIONS gets 405 and leaves the store as it was, without a statement
    sent; the first revision of main.go has no method check, and its
    createSale and deleteSale send their statement whatever the method. *)
Theorem C2_method_gate (rt : Runtime) (now : Z) (r : Req) (db : DB) :
  method r <> "POST" -> method r <> "OPTIONS" ->
  Part000.createSale rt r db = (http_error "Method not allowed" 405, db) /\
  Part000.deleteSale rt r db = (http_error "Method not allowed" 405, db) /\
  MainV2.createSale rt r db = (http_error "Method not allowed" 405, db) /\
  Part004.createSale rt now r db = (http_error "Method not allowed" 405, db) /\
  Part004.resetSales r db = (http_error "Method not allowed" 405, db) /\
  log (snd (MainV1.createSale rt r db)) <> log db /\
  log (snd (MainV1.deleteSale r db)) <> log db.
Proof.
  intros Hpost Hopt.
  apply String.eqb_neq in Hpost, Hopt.
  unfold Part000.createSale, Part000.deleteSale, MainV2.createSale,
    Part004.createSale, Part004.resetSales.
  rewrite Hpost, Hopt; cbn [negb].
  repeat split; try reflexivity.
  - unfold MainV1.createSale.
    assert (H := exec_insert_log (MainV1.insert_row rt (fst (decode rt MainV1.Sale (body r)))) db).
    destruct (exec_insert _ db) as [[]  db']; cbn [snd] in *; rewrite H; apply log_grows.
  - unfold MainV1.deleteSale.
    match goal with |- context [exec_delete ?v db] =>
      assert (H := exec_delete_log v db); destruct (exec_delete v db) as [[] db'] end;
    cbn [snd] in *; rewrite H; apply log_grows.
Qed.

Lemma C2_witness :
  "GET" <> "POST" /\ "GET" <> "OPTIONS" /\
  Part000.createSale rt_example (get_req []) (db_with []) = (http_error "Method not allowed" 405, db_with []).
Proof.
  split; [discriminate|split; [discriminate|]].
  apply (C2_method_gate rt_example 0 (get_req []) (db_with [])); discriminate.
Defined.

(** C10 (confirmed).  On an empty table the revisions that declare
    [var sales []Sale] (first revision of main.go, part_000, part_001)
    encode the nil slice, which [Encode] writes as [null]; those that
    allocate it ([make([]Sale, 0)] in the second revision of main.go,
    [[]Sale{}] in part_004) write [[]]. *)
Theorem C10_empty_listing (rt : Runtime) (r : Req) (db : DB) :
  up db = true -> tbl db = [] ->
  resp_body (fst (MainV1.getSales rt r db)) = RJson JNull /\
  resp_body (fst (Part000.getSales rt r db)) = RJson JNull /\
  resp_body (fst (Part001.getSales rt r db)) = RJson JNull /\
  resp_body (fst (MainV2.getSales rt r db)) = RJson (JArr []) /\
  resp_body (fst (Part004.getSales rt r db)) = RJson (JArr []).
Proof.
  intros Hup Htbl.
  unfold MainV1.getSales, Part000.getSales, Part001.getSales, MainV2.getSales,
    Part004.getSales, exec_select.
  rewrite Hup, Htbl; repeat split; reflexivity.
Qed.

Lemma C10_witness :
  up (db_with []) = true /\ tbl (db_with []) = [] /\
  resp_body (fst (MainV1.getSales rt_example (get_req []) (db_with []))) = RJson JNull.
Proof.
  split; [reflexivity|split; [reflexivity|]].
  apply (C10_empty_listing rt_example (get_req []) (db_with [])); reflexivity.
Defined.

(** C3 (corrected), counterexample.  With [from=2024-01-01] and
    [to=2024-01-02], the first revision of main.go still lists a row
    created at 2024-01-10T00:00:00Z (1704844800), which is after the end of
    2024-01-02 (1704240000 is 2024-01-03T00:00:00Z). *)
Lemma C3_range_not_applied :
  created_date (row_v1 1 1704844800) = Some 1704844800 /\ 1704240000 <= 1704844800 /\
  listed_ids (resp_body (fst (MainV1.getSales rt_example
                 (get_req [("from", "2024-01-01"); ("to", "2024-01-02")])
                 (db_with [row_v1 1 1704844800])))) = [Some 1].
Proof. split; [reflexivity|split; [lia|vm_compute; reflexivity]]. Qed.

(** C3 (corrected).  No revision's getSales reads the query string: a
    request with [from] and [to] gets exactly the response of any other
    request, and in the first revision a successful listing holds every
    row of the table, whatever its date. *)
Theorem C3_query_ignored (rt : Runtime) (r r' : Req) (db : DB) :
  MainV1.getSales rt r db = MainV1.getSales rt r' db /\
  MainV2.getSales rt r db = MainV2.getSales rt r' db /\
  Part000.getSales rt r db = Part000.getSales rt r' db /\
  Part001.getSales rt r db = Part001.getSales rt r' db /\
  Part004.getSales rt r db = Part004.getSales rt r' db /\
  (status (fst (MainV1.getSales rt r db)) = 200 ->
   exists rows, Permutation (tbl db) rows /\
     listed_ids (resp_body (fst (MainV1.getSales rt r db))) = map (fun x => Some (sale_id x)) rows).
Proof.
  repeat split; try reflexivity.
  intros H200; exists (order_by_created_desc (tbl db)); split.
  - apply order_by_created_desc_perm.
  - destruct (MainV1_getSales_listing rt r db) as [H|[H500 _]]; [exact H|].
    rewrite H500 in H200; discriminate.
Qed.

(** C5 (corrected), counterexample.  The first revision of main.go sends
    no LIMIT: a table of 501 rows is listed whole. *)
Lemma C5_no_cap_in_first_revision :
  length (listed_ids (resp_body (fst (MainV1.getSales rt_example (get_req [])
    (db_with (map (fun i => row_v1 (Z.of_nat i) (1704844800 + Z.of_nat i)) (List.seq 1 501)))))))
  = 501%nat.
Proof. vm_compute; reflexivity. Qed.

(** C5 (corrected).  Every revision orders rows by [created_date]
    descending (NULL dates first): a successful listing is the ordered
    table.  The second revision of main.go ([LIMIT 100]) lists at most the
    100 newest rows and part_004 ([LIMIT 500]) at most the 500 newest; the
    first revision of main.go, part_000 and part_001 send no LIMIT and list
    every row. *)
Theorem C5_order_and_caps (rt : Runtime) (r : Req) (db : DB) :
  let sorted := order_by_created_desc (tbl db) in
  Sorted (fun a b => RowDesc.leb a b = true) sorted /\ Permutation (tbl db) sorted /\
  (status (fst (MainV1.getSales rt r db)) = 200 ->
   listed_ids (resp_body (fst (MainV1.getSales rt r db))) = map (fun x => Some (sale_id x)) sorted) /\
  (status (fst (Part000.getSales rt r db)) = 200 ->
   listed_ids (resp_body (fst (Part000.getSales rt r db))) = map (fun x => Some (sale_id x)) sorted) /\
  (status (fst (Part001.getSales rt r db)) = 200 ->
   listed_ids (resp_body (fst (Part001.getSales rt r db))) = map (fun x => Some (sale_id x)) sorted) /\
  (status (fst (MainV2.getSales rt r db)) = 200 ->
   listed_ids (resp_body (fst (MainV2.getSales rt r db)))
   = map (fun x => Some (sale_id x)) (firstn 100 sorted)) /\
  (status (fst (Part004.getSales rt r db)) = 200 ->
   listed_ids (resp_body (fst (Part004.getSales rt r db)))
   = map (fun x => Some (sale_id x)) (firstn 500 sorted)) /\
  (length (listed_ids (resp_body (fst (MainV2.getSales rt r db)))) <= 100)%nat /\
  (length (listed_ids (resp_body (fst (Part004.getSales rt r db)))) <= 500)%nat.
Proof.
  intros sorted.
  assert (B3 : (length (listed_ids (resp_body (fst (MainV2.getSales rt r db)))) <= 100)%nat).
  { destruct (MainV2_getSales_listing rt r db) as [H|[_ H]]; rewrite H;
      [rewrite length_map, length_firstn; lia|simpl; lia]. }
  assert (B4 : (length (listed_ids (resp_body (fst (Part004.getSales rt r db)))) <= 500)%nat).
  { destruct (Part004_getSales_listing rt r db) as [H|[_ H]]; rewrite H;
      [rewrite length_map, length_firstn; lia|simpl; lia]. }
  split; [apply order_by_created_desc_sorted|].
  split; [apply order_by_created_desc_perm|].
  split; [|split; [|split; [|split; [|split; [|split; [exact B3|exact B4]]]]]]; intros H200.
  - destruct (MainV1_getSales_listing rt r db) as [H|[S _]]; [exact H|].
    rewrite S in H200; discriminate.
  - destruct (Part000_getSales_listing rt r db) as [H|[S _]]; [exact H|].
    rewrite S in H200; discriminate.
  - destruct (Part001_getSales_listing rt r db) as [H|[S _]]; [exact H|].
    rewrite S in H200; discriminate.
  - destruct (MainV2_getSales_listing rt r db) as [H|[S _]]; [exact H|].
    rewrite S in H200; discriminate.
  - destruct (Part004_getSales_listing rt r db) as [H|[S _]]; [exact H|].
    rewrite S in H200; discriminate.
Qed.

(** C4 (code_bug).  part_004 and part_000 create the table with
    [payment_method TEXT DEFAULT 'CASH'] but always list [payment_method]
    in their INSERT and pass the decoded [sale.PaymentMethod], which is the
    empty string when the field is omitted: the stored value is [""], not
    ["CASH"].  The second revision of main.go, whose INSERT leaves the
    column out, does get the default. *)
Theorem C4_omitted_payment_method_stored_empty :
  pm_default (db_with []) = Some "CASH" /\
  map payment_method (tbl (snd (Part004.createSale rt_example 1760000000
        (post_req (BodyJson (JObj asha_body))) (db_with [])))) = [Some ""] /\
  map payment_method (tbl (snd (Part000.createSale rt_example
        (post_req (BodyJson (JObj asha_body))) (db_with [])))) = [Some ""] /\
  map payment_method (tbl (snd (MainV2.createSale rt_example
        (post_req (BodyJson (JObj asha_body))) (db_with [])))) = [Some "CASH"].
Proof. vm_compute; repeat split; reflexivity. Qed.

(** C6 (code_bug).  part_001 drops the error returned by [rows.Scan]: a
    table holding a row that cannot be scanned is still answered 200, with
    that row in the list as the scan left it.  The sibling revision with
    the same struct and columns (second revision of main.go) checks the
    error and answers 500. *)
Theorem C6_part001_lists_unscannable_row :
  let db := db_with [row_v1 1 1704844800; row_null_name 2 1704931200] in
  status (fst (Part001.getSales rt_example (get_req []) db)) = 200 /\
  listed_ids (resp_body (fst (Part001.getSales rt_example (get_req []) db))) = [Some 2; Some 1] /\
  status (fst (MainV2.getSales rt_example (get_req []) db)) = 500.
Proof. vm_compute; repeat split; reflexivity. Qed.

Lemma exec_insert_ok (mk : Z -> DB -> result Row) (db : DB) (row : Row) :
  up db = true -> mk (seq db) db = Ok row ->
  exec_insert mk db = (Ok tt, with_rows (tbl db ++ [row])%list (seq db + 1) (logged StmtInsert db)).
Proof. intros Hup Hmk; unfold exec_insert; rewrite Hup, Hmk; reflexivity. Qed.





Lemma decode_delete_req (rt : Runtime) (k : Z) :
  int64_min <= k <= int64_max ->
  decode rt Part000.DeleteReq (BodyJson (JObj [("saleId", JNum k)])) = ([("saleId", GInt k)], None).
Proof.
  intros Hk.
  assert (Hb : (int64_min <=? k) && (k <=? int64_max) = true)
    by (apply andb_true_iff; split; apply Z.leb_le; lia).
  unfold decode; cbn [decode_object].
  change (field_for_key "saleId" Part000.DeleteReq) with (Some "saleId").
  change (lookup "saleId" Part000.DeleteReq) with (Some (GInt 0)).
  unfold store_field; rewrite Hb; reflexivity.
Qed.

Lemma not_listed_after_delete (k : Z) (rows : list Row) (ids : list (option Z)) :
  ids = map (fun x => Some (sale_id x))
            (order_by_created_desc (filter (fun x => negb (Z.eqb (sale_id x) k)) rows)) ->
  ~ In (Some k) ids.
Proof.
  intros -> Hin.
  apply in_map_iff in Hin; destruct Hin as [x [Hx Hin]]; injection Hx as Hx.
  apply (Permutation_in _ (Permutation_sym (order_by_created_desc_perm _))) in Hin.
  apply filter_In in Hin; destruct Hin as [_ Hneq].
  rewrite Hx, Z.eqb_refl in Hneq; discriminate.
Qed.

Lemma not_listed_after_filter (rt : Runtime) (k : Z) (rows : list Row) (d : DB) (r : Req) :
  tbl d = filter (fun x => negb (sale_id x =? k)) rows ->
  ~ In (Some k) (listed_ids (resp_body (fst (Part000.getSales rt r d)))) /\
  ~ In (Some k) (listed_ids (resp_body (fst (MainV1.getSales rt r d)))).
Proof.
  intros Ht; split.
  - destruct (Part000_getSales_listing rt r d) as [H|[_ H]].
    + rewrite Ht in H; exact (not_listed_after_delete k rows _ H).
    + rewrite H; intros [].
  - destruct (MainV1_getSales_listing rt r d) as [H|[_ H]].
    + rewrite Ht in H; exact (not_listed_after_delete k rows _ H).
    + rewrite H; intros [].
Qed.

(** C8 (confirmed).  DeleteByID is [DELETE FROM sales WHERE sale_id=$1],
    in part_000 (POST /sales/delete with body [{saleId}]) and in the first
    revision of main.go (any method on /sales/delete/<id>, the suffix
    passed as text).  For every id of the [sale_id] column type (for the
    first revision: every suffix the store reads as that id) it succeeds
    exactly when the store answers, whether or not a row has that id; and
    once it has succeeded, no successful listing shows that id. *)
Theorem C8_delete_by_id (rt : Runtime) (k : Z) (db : DB) :
  int4_min <= k <= int4_max ->
  (fst (exec_delete (SInt k) db) = Ok tt <-> up db = true) /\
  (status (fst (Part000.deleteSale rt (delete_req k) db)) = 200 <-> up db = true) /\
  (up db = true -> forall r,
     ~ In (Some k) (listed_ids (resp_body (fst (Part000.getSales rt r
                     (snd (Part000.deleteSale rt (delete_req k) db)))))) /\
     ~ In (Some k) (listed_ids (resp_body (fst (MainV1.getSales rt r
                     (snd (Part000.deleteSale rt (delete_req k) db))))))) /\
  (forall r1, let n := String.length MainV1.delete_prefix in
     int4_in db (substring n (String.length (path r1) - n) (path r1)) = Some k ->
     (status (fst (MainV1.deleteSale r1 db)) = 200 <-> up db = true) /\
     (up db = true -> forall r,
        ~ In (Some k) (listed_ids (resp_body (fst (Part000.getSales rt r
                        (snd (MainV1.deleteSale r1 db)))))) /\
        ~ In (Some k) (listed_ids (resp_body (fst (MainV1.getSales rt r
                        (snd (MainV1.deleteSale r1 db)))))))).
Proof.
  intros Hk.
  assert (Hp : param_int4 (int4_in db) (SInt k) = Ok k).
  { unfold param_int4; replace ((int4_min <=? k) && (k <=? int4_max)) with true; [reflexivity|].
    symmetry; apply andb_true_iff; split; apply Z.leb_le; lia. }
  assert (Hd : Part000.deleteSale rt (delete_req k) db
               = match exec_delete (SInt k) db with
                 | (Err e, db') => (http_error e 500, db')
                 | (Ok _, db') => (encode_ok (message "Sale deleted successfully"), db')
                 end).
  { unfold Part000.deleteSale, delete_req; cbn [method body String.eqb negb].
    rewrite decode_delete_req
      by (unfold int4_min, int4_max, int64_min, int64_max in *; lia).
    reflexivity. }
  split; [|split; [|split]].
  - unfold exec_delete; rewrite Hp; destruct (up db); split; try reflexivity; discriminate.
  - rewrite Hd; unfold exec_delete; rewrite Hp; destruct (up db); split; try reflexivity; discriminate.
  - intros Hup r; rewrite Hd; unfold exec_delete; rewrite Hp, Hup; cbn [snd].
    apply (not_listed_after_filter rt k (tbl db)); reflexivity.
  - intros r1 n Hs; unfold MainV1.deleteSale, exec_delete; fold n; unfold param_int4; rewrite Hs.
    destruct (up db) eqn:Hup; split; cbn [fst snd status].
    + split; reflexivity.
    + intros _ r; apply (not_listed_after_filter rt k (tbl db)); reflexivity.
    + split; discriminate.
    + discriminate.
Qed.

Lemma C8_witness :
  int4_min <= 7 <= int4_max /\
  status (fst (Part000.deleteSale rt_example (delete_req 7) (db_with []))) = 200 /\
  status (fst (MainV1.deleteSale (mkReq "GET" "/sales/delete/ 7" [] BodyEmpty)
                 (db_with [row_v1 7 5]))) = 200.
Proof.
  assert (Hk : int4_min <= 7 <= int4_max) by (unfold int4_min, int4_max; lia).
  split; [exact Hk|split].
  - apply (proj1 (proj2 (C8_delete_by_id rt_example 7 (db_with []) Hk))); reflexivity.
  - apply (proj2 (proj1 (proj2 (proj2 (proj2 (C8_delete_by_id rt_example 7 (db_with [row_v1 7 5]) Hk)))
             (mkReq "GET" "/sales/delete/ 7" [] BodyEmpty) eq_refl))).
    reflexivity.
Defined.

(** C9 (confirmed).  part_004's POST /sales/reset runs [TRUNCATE TABLE
    sales RESTART IDENTITY]: the table is emptied and the sequence is back
    at its start, so the next successful POST /sales/create stores a row
    whose id is that start value. *)
Theorem C9_reset_then_create (rt : Runtime) (now : Z) (r r2 : Req) (db : DB) :
  method r = "POST" -> up db = true ->
  tbl (snd (Part004.resetSales r db)) = [] /\
  seq (snd (Part004.resetSales r db)) = seq_start /\
  (method r2 = "POST" ->
   status (fst (Part004.createSale rt now r2 (snd (Part004.resetSales r db)))) = 200 ->
   map sale_id (tbl (snd (Part004.createSale rt now r2 (snd (Part004.resetSales r db))))) = [seq_start]).
Proof.
  intros Hm Hup.
  assert (Hr : Part004.resetSales r db
               = (encode_ok (message "All sales deleted & ID reset"),
                  with_rows [] seq_start (logged StmtTruncate db)))
    by (unfold Part004.resetSales, exec_truncate; rewrite Hm, Hup; reflexivity).
  rewrite Hr; cbn [fst snd].
  split; [reflexivity|split; [reflexivity|]].
  intros Hm2; unfold Part004.createSale; rewrite Hm2.
  change (String.eqb "POST" "OPTIONS") with false.
  change (String.eqb "POST" "POST") with true; cbn [negb].
  destruct (decode rt SalePM (body r2)) as [sale [e|]];
    [intros H; cbn in H; discriminate H|].
  unfold exec_insert; cbn [up with_rows logged]; rewrite Hup.
  unfold insert_row_pm.
  destruct (check_numbers (get_int "quantity" sale) (get_float "price" sale));
    intros H; cbn in *; [discriminate H|reflexivity].
Qed.

Lemma C9_witness :
  "POST" = "POST" /\ up (db_with [row_v1 4 1704844800]) = true /\
  seq (snd (Part004.resetSales (post_req BodyEmpty) (db_with [row_v1 4 1704844800]))) = seq_start.
Proof.
  split; [reflexivity|split; [reflexivity|]].
  apply (C9_reset_then_create rt_example 0 (post_req BodyEmpty) (post_req BodyEmpty)
           (db_with [row_v1 4 1704844800])); reflexivity.
Defined.

(** ** Further properties of the handlers *)

(** *** The store operations and the id discipline *)

Lemma MainV1_insert_row_id (rt : Runtime) (sale : GoStruct) (id : Z) (d : DB) (row : Row) :
  MainV1.insert_row rt sale id d = Ok row -> sale_id row = id.
Proof.
  unfold MainV1.insert_row; destruct (check_numbers _ _); [discriminate|].
  destruct (String.eqb _ _); [|destruct (pg_timestamp _ _)];
    intros H; try discriminate; inversion H; reflexivity.
Qed.

Lemma MainV2_insert_row_id (sale : GoStruct) (id : Z) (d : DB) (row : Row) :
  MainV2.insert_row sale id d = Ok row -> sale_id row = id.
Proof.
  unfold MainV2.insert_row; destruct (check_numbers _ _); [discriminate|].
  intros H; inversion H; reflexivity.
Qed.

Lemma insert_row_pm_id (sale : GoStruct) (t id : Z) (d : DB) (row : Row) :
  insert_row_pm sale t id d = Ok row -> sale_id row = id.
Proof.
  unfold insert_row_pm; destruct (check_numbers _ _); [discriminate|].
  intros H; inversion H; reflexivity.
Qed.

(** The ids left by [DELETE ... WHERE sale_id=k] are the old ids other than [k]. *)
Lemma delete_ids (k : Z) (rows : list Row) :
  map sale_id (filter (fun x => negb (sale_id x =? k)) rows)
  = filter (fun n => negb (n =? k)) (map sale_id rows).
Proof.
  induction rows as [|x rows IH]; cbn [filter map]; [reflexivity|].
  destruct (negb (sale_id x =? k)); cbn [map]; rewrite IH; reflexivity.
Qed.

Lemma filter_idem {A} (p : A -> bool) (l : list A) : filter p (filter p l) = filter p l.
Proof.
  induction l as [|x l IH]; simpl; [reflexivity|].
  destruct (p x) eqn:E; simpl; [rewrite E, IH|]; auto.
Qed.

Lemma exec_insert_ids (mk : Z -> DB -> result Row) (db db' : DB) (res : result unit) :
  exec_insert mk db = (res, db') ->
  ids_ok db -> (forall id d row, mk id d = Ok row -> sale_id row = id) -> ids_ok db'.
Proof.
  unfold exec_insert, ids_ok; intros H [Hnd Hlt] Hmk.
  destruct (up db); [destruct (mk (seq db) db) as [row|e] eqn:E|];
    inversion H; subst; clear H; cbn [tbl seq with_rows logged]; [|split; assumption..].
  apply Hmk in E; split.
  - rewrite map_app; cbn [map].
    apply (Permutation_NoDup (Permutation_cons_append _ _)); constructor; [|exact Hnd].
    intros Hin; apply in_map_iff in Hin; destruct Hin as [x [Hx Hin]].
    rewrite Forall_forall in Hlt; specialize (Hlt x Hin); lia.
  - apply Forall_app; split.
    + eapply Forall_impl; [|exact Hlt]; intros x; cbn beta; lia.
    + constructor; [lia|constructor].
Qed.

Lemma exec_delete_ids (v : SqlVal) (db db' : DB) (res : result unit) :
  exec_delete v db = (res, db') -> ids_ok db -> ids_ok db'.
Proof.
  unfold exec_delete, ids_ok; intros H [Hnd Hlt].
  destruct (up db); [destruct (param_int4 (int4_in db) v) as [k|e]|];
    inversion H; subst; clear H; cbn [tbl seq with_rows logged]; [|split; assumption..].
  split; [rewrite delete_ids; apply NoDup_filter; exact Hnd|].
  rewrite Forall_forall in *; intros x Hin; apply filter_In in Hin; apply Hlt; tauto.
Qed.

Lemma exec_truncate_ids (db db' : DB) (res : result unit) :
  exec_truncate db = (res, db') -> ids_ok db -> ids_ok db'.
Proof.
  unfold exec_truncate; intros H Hok; destruct (up db); inversion H; subst; clear H;
    [split; constructor|exact Hok].
Qed.

Lemma exec_select_ids (limit : option nat) (db db' : DB) (res : result (list Row)) :
  exec_select limit db = (res, db') -> ids_ok db -> ids_ok db'.
Proof. unfold exec_select; intros H Hok; destruct (up db); inversion H; subst; exact Hok. Qed.

Lemma exec_insert_fresh (mk : Z -> DB -> result Row) (db db' : DB) (res : result unit) :
  exec_insert mk db = (res, db') ->
  (forall id d row, mk id d = Ok row -> sale_id row = id) -> fresh_ids db db'.
Proof.
  unfold exec_insert, fresh_ids; intros H Hmk.
  destruct (up db); [destruct (mk (seq db) db) as [row|e] eqn:E|];
    inversion H; subst; clear H; cbn [tbl seq with_rows logged];
    [|split; [lia|intros x Hx; left; exact Hx]..].
  apply Hmk in E; split; [lia|].
  intros x Hx; apply in_app_or in Hx; destruct Hx as [Hx|[<-|[]]]; [left; exact Hx|right; lia].
Qed.

Lemma exec_delete_fresh (v : SqlVal) (db db' : DB) (res : result unit) :
  exec_delete v db = (res, db') -> fresh_ids db db'.
Proof.
  unfold exec_delete, fresh_ids; intros H.
  destruct (up db); [destruct (param_int4 (int4_in db) v) as [k|e]|];
    inversion H; subst; clear H; cbn [tbl seq with_rows logged];
    (split; [lia|intros x Hx; left]); [apply filter_In in Hx; tauto|exact Hx..].
Qed.

Lemma exec_select_fresh (limit : option nat) (db db' : DB) (res : result (list Row)) :
  exec_select limit db = (res, db') -> fresh_ids db db'.
Proof.
  unfold exec_select, fresh_ids; intros H; destruct (up db); inversion H; subst;
    cbn [tbl seq logged]; (split; [lia|intros x Hx; left; exact Hx]).
Qed.

(** On an unreachable store, every statement fails and nothing changes. *)
Lemma exec_insert_down (mk : Z -> DB -> result Row) (db db' : DB) (res : result unit) :
  exec_insert mk db = (res, db') -> up db = false -> same_rows db db' /\ forall u, res <> Ok u.
Proof.
  unfold exec_insert; intros H Hd; rewrite Hd in H; inversion H; subst.
  split; [split; reflexivity|intros u; discriminate].
Qed.

Lemma exec_delete_down (v : SqlVal) (db db' : DB) (res : result unit) :
  exec_delete v db = (res, db') -> up db = false -> same_rows db db' /\ forall u, res <> Ok u.
Proof.
  unfold exec_delete; intros H Hd; rewrite Hd in H; inversion H; subst.
  split; [split; reflexivity|intros u; discriminate].
Qed.

Lemma exec_truncate_down (db db' : DB) (res : result unit) :
  exec_truncate db = (res, db') -> up db = false -> same_rows db db' /\ forall u, res <> Ok u.
Proof.
  unfold exec_truncate; intros H Hd; rewrite Hd in H; inversion H; subst.
  split; [split; reflexivity|intros u; discriminate].
Qed.

Lemma exec_select_down (limit : option nat) (db db' : DB) (res : result (list Row)) :
  exec_select limit db = (res, db') -> up db = false -> res = Err conn_error /\ same_rows db db'.
Proof.
  unfold exec_select; intros H Hd; rewrite Hd in H; inversion H; subst.
  split; [reflexivity|split; reflexivity].
Qed.

(** Splits a handler along its branches: method tests, the decode, the one
    store statement and the scan loop; [ins], [del], [trn] and [sel] turn
    the equation of the statement into what is known of the new store. *)
Ltac handler_cases ins del trn sel :=
  repeat (cbv beta iota zeta;
    match goal with
    | |- context [exec_insert ?mk ?d] =>
        let E := fresh "E" in
        destruct (exec_insert mk d) as [[?|?] ?] eqn:E; apply ins in E
    | |- context [exec_delete ?v ?d] =>
        let E := fresh "E" in
        destruct (exec_delete v d) as [[?|?] ?] eqn:E; apply del in E
    | |- context [exec_truncate ?d] =>
        let E := fresh "E" in
        destruct (exec_truncate d) as [[?|?] ?] eqn:E; apply trn in E
    | |- context [exec_select ?l ?d] =>
        let E := fresh "E" in
        destruct (exec_select l d) as [[?|?] ?] eqn:E; apply sel in E
    | |- context [scan_rows ?sc ?ch ?rows ?init] => destruct (scan_rows sc ch rows init)
    | |- context [decode ?rt ?z ?b] => destruct (decode rt z b) as [? [?|]]
    | |- context [if ?b then _ else _] => destruct b eqn:?
    end).

Ltac down_close :=
  cbn [fst snd status http_error empty_ok encode_ok MainV2.json_error] in *;
  first [ reflexivity | assumption
        | match goal with H : same_rows _ _ /\ _ |- _ =>
            first [ exfalso; eapply (proj2 H); reflexivity | exact (proj1 H) ] end
        | match goal with H : Ok _ = Err _ /\ _ |- _ => discriminate (proj1 H) end
        | match goal with H : _ = Err _ /\ same_rows _ _ |- _ => exact (proj2 H) end
        | split; reflexivity
        | intros Hs; first [ discriminate Hs | apply String.eqb_eq; assumption ] ].

Ltac fresh_tac :=
  handler_cases exec_insert_fresh exec_delete_fresh exec_truncate_ids exec_select_fresh;
  cbn [snd];
  first [ assumption
        | split; [lia|intros ? Hx; left; exact Hx]
        | intros ? ? ?; first [ apply MainV1_insert_row_id | apply MainV2_insert_row_id
                              | apply insert_row_pm_id ] ].

Ltac ids_tac Hok :=
  handler_cases exec_insert_ids exec_delete_ids exec_truncate_ids exec_select_ids;
  cbn [snd];
  first [ exact Hok | assumption
        | intros ? ? ?; first [ apply MainV1_insert_row_id | apply MainV2_insert_row_id
                              | apply insert_row_pm_id ] ].

(** *** Reading whole objects back from a listing *)



(** ** Properties beyond the claims *)

(** Every handler of every revision keeps the ids of the table distinct
    and below the sequence's next value.  Every handler but part_004's
    reset never moves the sequence back and adds only rows whose id the
    sequence had not reached: as every id handed out so far is below that
    value, none of them is handed out again.  The reset restarts the
    sequence, so that ids are handed out anew (see C9). *)
Theorem X_ids_invariant (rt : Runtime) (now : Z) (r : Req) (db : DB) :
  ids_ok db ->
  (ids_ok (snd (MainV1.getSales rt r db)) /\ ids_ok (snd (MainV1.createSale rt r db)) /\
   ids_ok (snd (MainV1.deleteSale r db)) /\
   ids_ok (snd (MainV2.getSales rt r db)) /\ ids_ok (snd (MainV2.createSale rt r db)) /\
   ids_ok (snd (Part000.getSales rt r db)) /\ ids_ok (snd (Part000.createSale rt r db)) /\
   ids_ok (snd (Part000.deleteSale rt r db)) /\
   ids_ok (snd (Part001.getSales rt r db)) /\ ids_ok (snd (Part001.createSale rt r db)) /\
   ids_ok (snd (Part004.getSales rt r db)) /\ ids_ok (snd (Part004.createSale rt now r db)) /\
   ids_ok (snd (Part004.resetSales r db))) /\
  (fresh_ids db (snd (MainV1.getSales rt r db)) /\ fresh_ids db (snd (MainV1.createSale rt r db)) /\
   fresh_ids db (snd (MainV1.deleteSale r db)) /\
   fresh_ids db (snd (MainV2.getSales rt r db)) /\ fresh_ids db (snd (MainV2.createSale rt r db)) /\
   fresh_ids db (snd (Part000.getSales rt r db)) /\ fresh_ids db (snd (Part000.createSale rt r db)) /\
   fresh_ids db (snd (Part000.deleteSale rt r db)) /\
   fresh_ids db (snd (Part001.getSales rt r db)) /\ fresh_ids db (snd (Part001.createSale rt r db)) /\
   fresh_ids db (snd (Part004.getSales rt r db)) /\
   fresh_ids db (snd (Part004.createSale rt now r db))).
Proof.
  intros Hok.
  unfold MainV1.getSales, MainV1.createSale, MainV1.deleteSale, MainV2.getSales,
    MainV2.createSale, Part000.getSales, Part000.createSale, Part000.deleteSale,
    Part001.getSales, Part001.createSale, Part004.getSales, Part004.createSale,
    Part004.resetSales.
  split.
  - repeat match goal with |- _ /\ _ => split end; ids_tac Hok.
  - repeat match goal with |- _ /\ _ => split end; fresh_tac.
Qed.

(** When the store refuses every statement at once (the connection is
    refused; a store that stalls is another matter, which the model does
    not cover), every listing is a 500, the handlers that always reach the
    store answer 500, and the others report success only for the CORS
    preflight (OPTIONS), which does not reach the store; no handler,
    listings included, changes the rows or the id sequence. *)
Theorem X_store_down (rt : Runtime) (now : Z) (r : Req) (db : DB) :
  up db = false ->
  status (fst (MainV1.getSales rt r db)) = 500 /\ status (fst (MainV2.getSales rt r db)) = 500 /\
  status (fst (Part000.getSales rt r db)) = 500 /\ status (fst (Part001.getSales rt r db)) = 500 /\
  status (fst (Part004.getSales rt r db)) = 500 /\
  same_rows db (snd (MainV1.getSales rt r db)) /\ same_rows db (snd (MainV2.getSales rt r db)) /\
  same_rows db (snd (Part000.getSales rt r db)) /\ same_rows db (snd (Part001.getSales rt r db)) /\
  same_rows db (snd (Part004.getSales rt r db)) /\
  status (fst (MainV1.createSale rt r db)) = 500 /\ same_rows db (snd (MainV1.createSale rt r db)) /\
  status (fst (MainV1.deleteSale r db)) = 500 /\ same_rows db (snd (MainV1.deleteSale r db)) /\
  (status (fst (MainV2.createSale rt r db)) = 200 -> method r = "OPTIONS") /\
  same_rows db (snd (MainV2.createSale rt r db)) /\
  (status (fst (Part001.createSale rt r db)) = 200 -> method r = "OPTIONS") /\
  same_rows db (snd (Part001.createSale rt r db)) /\
  (status (fst (Part004.createSale rt now r db)) = 200 -> method r = "OPTIONS") /\
  same_rows db (snd (Part004.createSale rt now r db)) /\
  status (fst (Part000.createSale rt r db)) <> 200 /\ same_rows db (snd (Part000.createSale rt r db)) /\
  status (fst (Part000.deleteSale rt r db)) <> 200 /\ same_rows db (snd (Part000.deleteSale rt r db)) /\
  status (fst (Part004.resetSales r db)) <> 200 /\ same_rows db (snd (Part004.resetSales r db)).
Proof.
  intros Hdown.
  unfold MainV1.getSales, MainV1.createSale, MainV1.deleteSale, MainV2.getSales,
    MainV2.createSale, Part000.getSales, Part000.createSale, Part000.deleteSale,
    Part001.getSales, Part001.createSale, Part004.getSales, Part004.createSale,
    Part004.resetSales.
  repeat match goal with |- _ /\ _ => split end;
    handler_cases exec_insert_down exec_delete_down exec_truncate_down exec_select_down;
    down_close.
Qed.

(** Every revision that checks the decode error answers a POST whose body
    does not decode (empty, not JSON, a field of the wrong JSON type, a
    non-object value) with 400 and the decoder's message, and sends
    nothing to the store. *)
Theorem X_decode_error_400 (rt : Runtime) (now : Z) (r : Req) (db : DB) (e : string) :
  method r = "POST" ->
  (snd (decode rt SalePM (body r)) = Some e ->
     Part000.createSale rt r db = (http_error e 400, db) /\
     Part004.createSale rt now r db = (http_error e 400, db)) /\
  (snd (decode rt MainV2.Sale (body r)) = Some e ->
     MainV2.createSale rt r db = (http_error e 400, db) /\
     Part001.createSale rt r db = (http_error e 400, db)) /\
  (snd (decode rt Part000.DeleteReq (body r)) = Some e ->
     Part000.deleteSale rt r db = (http_error e 400, db)).
Proof.
  intros Hm; unfold Part000.createSale, Part004.createSale, MainV2.createSale,
    Part001.createSale, Part000.deleteSale; rewrite Hm.
  change (String.eqb "POST" "OPTIONS") with false.
  change (String.eqb "POST" "POST") with true; cbn [negb].
  split; [|split]; intros He;
    match type of He with snd (decode ?rt ?z ?b) = _ =>
      destruct (decode rt z b) as [s err]; cbn [snd] in He; subst err end;
    try split; reflexivity.
Qed.

(** The first revision passes the path suffix of /sales/delete/ to the
    store as text: when the store's integer input refuses it (an empty
    suffix, text that is no number, a number out of the int4 range) the
    answer is 500 and no row is deleted. *)
Theorem X_mainv1_delete_bad_suffix (r : Req) (db : DB) :
  let n := String.length MainV1.delete_prefix in
  int4_in db (substring n (String.length (path r) - n) (path r)) = None ->
  status (fst (MainV1.deleteSale r db)) = 500 /\ same_rows db (snd (MainV1.deleteSale r db)).
Proof.
  intros n Hp; unfold MainV1.deleteSale, exec_delete; fold n.
  destruct (up db); [unfold param_int4; rewrite Hp|]; split; try reflexivity; split; reflexivity.
Qed.

Lemma Part000_deleteSale_ok (rt : Runtime) (k : Z) (db : DB) :
  int4_min <= k <= int4_max -> up db = true ->
  Part000.deleteSale rt (delete_req k) db
  = (encode_ok (message "Sale deleted successfully"),
     with_rows (filter (fun x => negb (sale_id x =? k)) (tbl db)) (seq db)
               (logged (StmtDelete (SInt k)) db)).
Proof.
  intros Hk Hup.
  unfold Part000.deleteSale, delete_req; cbn [method body].
  change (String.eqb "POST" "POST") with true; cbn [negb].
  rewrite decode_delete_req by (unfold int4_min, int4_max, int64_min, int64_max in *; lia).
  unfold exec_delete, param_int4; rewrite Hup.
  change (get_int "saleId" [("saleId", GInt k)]) with k.
  replace ((int4_min <=? k) && (k <=? int4_max)) with true; [reflexivity|].
  symmetry; apply andb_true_iff; split; apply Z.leb_le; lia.
Qed.

(** part_000's delete removes exactly the rows with the given id, keeps the
    others in their order, leaves the sequence alone, and repeating it
    changes nothing more. *)
Theorem X_part000_delete_exact (rt : Runtime) (k : Z) (db : DB) :
  int4_min <= k <= int4_max -> up db = true ->
  tbl (snd (Part000.deleteSale rt (delete_req k) db))
    = filter (fun x => negb (sale_id x =? k)) (tbl db) /\
  seq (snd (Part000.deleteSale rt (delete_req k) db)) = seq db /\
  tbl (snd (Part000.deleteSale rt (delete_req k) (snd (Part000.deleteSale rt (delete_req k) db))))
    = tbl (snd (Part000.deleteSale rt (delete_req k) db)).
Proof.
  intros Hk Hup.
  rewrite (Part000_deleteSale_ok rt k db Hk Hup); cbn [snd tbl seq with_rows].
  split; [reflexivity|split; [reflexivity|]].
  rewrite Part000_deleteSale_ok by (cbn [up with_rows logged]; assumption).
  cbn [tbl with_rows]; apply filter_idem.
Qed.



Lemma four_column_create (rt : Runtime) (r : Req) (db : DB) (sale : GoStruct) :
  method r = "POST" -> up db = true ->
  decode rt MainV2.Sale (body r) = (sale, None) ->
  check_numbers (get_int "quantity" sale) (get_float "price" sale) = None ->
  let db' := with_rows (tbl db ++ [mkRow (seq db) (Some (get_str "customerName" sale))
                                         (Some (get_str "productName" sale)) None None
                                         (Some (get_int "quantity" sale)) (Some (get_float "price" sale))
                                         (pm_default db) (cd_default db (clock db))])%list
                       (seq db + 1) (logged StmtInsert db) in
  MainV2.createSale rt r db = (encode_ok (message "Sale added successfully"), db') /\
  Part001.createSale rt r db = (encode_ok (message "Sale added successfully"), db').
Proof.
  intros Hm Hup Hs Hnum db'.
  assert (Hmk : MainV2.insert_row sale (seq db) db
                = Ok (mkRow (seq db) (Some (get_str "customerName" sale))
                            (Some (get_str "productName" sale)) None None
                            (Some (get_int "quantity" sale)) (Some (get_float "price" sale))
                            (pm_default db) (cd_default db (clock db))))
    by (unfold MainV2.insert_row; cbv beta zeta; rewrite Hnum; reflexivity).
  unfold MainV2.createSale, Part001.createSale; rewrite Hm.
  change (String.eqb "POST" "OPTIONS") with false.
  change (String.eqb "POST" "POST") with true; cbn [negb].
  rewrite Hs, (exec_insert_ok _ _ _ Hup Hmk); split; reflexivity.
Qed.


Lemma MainV1_scan_null_text (rt : Runtime) (x : Row) :
  cell x = None \/ warranty x = None -> snd (MainV1.scan_sale rt x) <> None.
Proof.
  destruct x as [id cn pn c w q p pm cd]; cbn [cell warranty].
  intros Hx; unfold MainV1.scan_sale.
  destruct cn, pn; (destruct Hx as [-> | ->]; [|destruct c]); cbv; discriminate.
Qed.

Lemma scan_rows_checked_fails (scan : Row -> GoStruct * option string) (rows : list Row)
    (init : option (list GoStruct)) (x : Row) :
  In x rows -> snd (scan x) <> None -> exists e, scan_rows scan true rows init = inr e.
Proof.
  revert init; induction rows as [|y rest IH]; intros init Hin Hx; [destruct Hin|].
  cbn [scan_rows]; destruct Hin as [Heq|Hin]; [subst y|].
  - destruct (scan x) as [s [e|]]; [eexists; reflexivity|cbn in Hx; congruence].
  - destruct (scan y) as [s [e|]]; [eexists; reflexivity|apply IH; assumption].
Qed.

Lemma MainV1_getSales_null_text (rt : Runtime) (r : Req) (db : DB) (x : Row) :
  up db = true -> In x (tbl db) -> cell x = None \/ warranty x = None ->
  status (fst (MainV1.getSales rt r db)) = 500.
Proof.
  intros Hup Hin Hx; unfold MainV1.getSales, exec_select; rewrite Hup.
  destruct (scan_rows_checked_fails (MainV1.scan_sale rt) (order_by_created_desc (tbl db)) None x)
    as [e He].
  - apply (Permutation_in _ (order_by_created_desc_perm _)); exact Hin.
  - apply MainV1_scan_null_text; exact Hx.
  - rewrite He; reflexivity.
Qed.

(** main.go's first revision reads [cell] and [warranty] into Go strings,
    which cannot hold NULL: one row with either column NULL makes the
    whole listing a 500, and the four-column INSERT of the second revision
    writes such a row, so a successful create there breaks the first
    revision's listing of the same table. *)
Theorem X_mainv1_list_null_text (rt : Runtime) (r r2 : Req) (db : DB) (x : Row) :
  up db = true ->
  (In x (tbl db) -> cell x = None \/ warranty x = None ->
   status (fst (MainV1.getSales rt r2 db)) = 500) /\
  (method r = "POST" -> status (fst (MainV2.createSale rt r db)) = 200 ->
   status (fst (MainV1.getSales rt r2 (snd (MainV2.createSale rt r db)))) = 500).
Proof.
  intros Hup; split; [apply MainV1_getSales_null_text; exact Hup|].
  intros Hm; destruct (decode rt MainV2.Sale (body r)) as [sale [e|]] eqn:Hs.
  - unfold MainV2.createSale; rewrite Hm, Hs.
    change (String.eqb "POST" "OPTIONS") with false.
    change (String.eqb "POST" "POST") with true; cbn; discriminate.
  - destruct (check_numbers (get_int "quantity" sale) (get_float "price" sale)) eqn:Hnum.
    + unfold MainV2.createSale; rewrite Hm, Hs.
      change (String.eqb "POST" "OPTIONS") with false.
      change (String.eqb "POST" "POST") with true; cbn [negb].
      unfold exec_insert, MainV2.insert_row; rewrite Hup; cbv beta zeta; rewrite Hnum.
      cbn; discriminate.
    + destruct (four_column_create rt r db sale Hm Hup Hs Hnum) as [H2 _].
      rewrite H2; intros _; cbn [snd].
      eapply MainV1_getSales_null_text;
        [ cbn [up with_rows logged]; exact Hup
        | cbn [tbl with_rows]; apply in_or_app; right; left; reflexivity
        | left; reflexivity ].
Qed.

Lemma Part000_createSale_rows (rt : Runtime) (r : Req) (d : DB) :
  tbl (snd (Part000.createSale rt r d)) = tbl d \/
  exists row, tbl (snd (Part000.createSale rt r d)) = (tbl d ++ [row])%list /\ sale_id row = seq d.
Proof.
  unfold Part000.createSale.
  destruct (negb _); [left; reflexivity|].
  destruct (decode rt SalePM (body r)) as [sale [e|]]; [left; reflexivity|].
  unfold exec_insert; destruct (up d); [|left; reflexivity].
  destruct (insert_row_pm sale (ist_wall (clock d)) (seq d) d) as [row|e] eqn:E;
    [|left; reflexivity].
  right; exists row; split; [reflexivity|].
  exact (insert_row_pm_id _ _ _ _ _ E).
Qed.

(** In part_000, once a sale's id has been deleted, the next create cannot
    bring that id back: the sequence has already moved past it. *)
Theorem X_deleted_id_not_reused (rt : Runtime) (r : Req) (k : Z) (db : DB) :
  ids_ok db -> In k (map sale_id (tbl db)) -> int4_min <= k <= int4_max -> up db = true ->
  ~ In k (map sale_id (tbl (snd (Part000.createSale rt r
                                   (snd (Part000.deleteSale rt (delete_req k) db)))))).
Proof.
  intros [_ Hlt] Hk Hr Hup.
  assert (Hkl : k < seq db).
  { apply in_map_iff in Hk; destruct Hk as [x [<- Hx]].
    rewrite Forall_forall in Hlt; exact (Hlt x Hx). }
  rewrite (Part000_deleteSale_ok rt k db Hr Hup); cbn [snd].
  assert (Hf : ~ In k (map sale_id (filter (fun x => negb (sale_id x =? k)) (tbl db)))).
  { intros Hin; apply in_map_iff in Hin; destruct Hin as [x [Hx Hin]].
    apply filter_In in Hin; destruct Hin as [_ Hn]; rewrite Hx, Z.eqb_refl in Hn; discriminate. }
  destruct (Part000_createSale_rows rt r
              (with_rows (filter (fun x => negb (sale_id x =? k)) (tbl db)) (seq db)
                         (logged (StmtDelete (SInt k)) db))) as [H|[row [H Hid]]];
    rewrite H; cbn [tbl seq with_rows] in *; [exact Hf|].
  rewrite map_app; intros Hin; apply in_app_or in Hin; destruct Hin as [Hin|[Hin|[]]];
    [exact (Hf Hin)|lia].
Qed.

(** *** Witnesses *)

Lemma ids_ok_two_rows : ids_ok (db_with [row_v1 1 5; row_v1 2 6]).
Proof.
  split; cbn [tbl db_with map].
  - constructor; [cbn; intros [H|[]]; discriminate|].
    constructor; [intros []|constructor].
  - repeat constructor; cbn; lia.
Qed.

Lemma X_ids_invariant_witness :
  ids_ok (db_with [row_v1 1 5; row_v1 2 6]) /\
  ids_ok (snd (MainV1.createSale rt_example (post_req (BodyJson (JObj asha_body)))
                 (db_with [row_v1 1 5; row_v1 2 6]))).
Proof.
  split; [exact ids_ok_two_rows|].
  destruct (X_ids_invariant rt_example 0 (post_req (BodyJson (JObj asha_body)))
              (db_with [row_v1 1 5; row_v1 2 6]) ids_ok_two_rows) as [[_ [H _]] _].
  exact H.
Defined.

Lemma X_store_down_witness :
  up (mkDB [] 1 None (fun c => Some c) pg_int4_in 0 false []) = false /\
  status (fst (MainV1.getSales rt_example (get_req []) (mkDB [] 1 None (fun c => Some c) pg_int4_in 0 false []))) = 500.
Proof.
  split; [reflexivity|].
  exact (proj1 (X_store_down rt_example 0 (get_req []) (mkDB [] 1 None (fun c => Some c) pg_int4_in 0 false []) eq_refl)).
Defined.

Lemma X_decode_error_400_witness :
  method (post_req BodyEmpty) = "POST" /\
  Part000.deleteSale rt_example (post_req BodyEmpty) (db_with [])
    = (http_error "EOF" 400, db_with []).
Proof.
  split; [reflexivity|].
  apply (proj2 (proj2 (X_decode_error_400 rt_example 0 (post_req BodyEmpty) (db_with []) "EOF"
                         eq_refl))).
  reflexivity.
Defined.

Lemma X_mainv1_delete_bad_suffix_witness :
  int4_in (db_with [row_v1 1 5]) "abc" = None /\
  status (fst (MainV1.deleteSale (mkReq "GET" "/sales/delete/abc" [] BodyEmpty)
                 (db_with [row_v1 1 5]))) = 500 /\
  tbl (snd (MainV1.deleteSale (mkReq "GET" "/sales/delete/abc" [] BodyEmpty)
              (db_with [row_v1 1 5]))) = [row_v1 1 5].
Proof.
  split; [reflexivity|].
  destruct (X_mainv1_delete_bad_suffix (mkReq "GET" "/sales/delete/abc" [] BodyEmpty)
              (db_with [row_v1 1 5]) eq_refl) as [Hs [Ht _]].
  split; [exact Hs|exact Ht].
Defined.

Lemma X_part000_delete_exact_witness :
  int4_min <= 1 <= int4_max /\
  tbl (snd (Part000.deleteSale rt_example (delete_req 1) (db_with [row_v1 1 5; row_v1 2 6])))
    = [row_v1 2 6].
Proof.
  assert (Hk : int4_min <= 1 <= int4_max) by (unfold int4_min, int4_max; lia).
  split; [exact Hk|].
  rewrite (proj1 (X_part000_delete_exact rt_example 1 (db_with [row_v1 1 5; row_v1 2 6]) Hk eq_refl)).
  reflexivity.
Defined.




Lemma X_mainv1_list_null_text_witness :
  up (db_with []) = true /\
  status (fst (MainV2.createSale rt_example (post_req (BodyJson (JObj asha_body))) (db_with []))) = 200 /\
  status (fst (MainV1.getSales rt_example (get_req [])
     (snd (MainV2.createSale rt_example (post_req (BodyJson (JObj asha_body))) (db_with []))))) = 500.
Proof.
  assert (H : status (fst (MainV2.createSale rt_example (post_req (BodyJson (JObj asha_body)))
                             (db_with []))) = 200) by (vm_compute; reflexivity).
  split; [reflexivity|split; [exact H|]].
  exact (proj2 (X_mainv1_list_null_text rt_example (post_req (BodyJson (JObj asha_body)))
                  (get_req []) (db_with []) (row_v1 1 0) eq_refl) eq_refl H).
Defined.

Lemma X_deleted_id_not_reused_witness :
  ids_ok (db_with [row_v1 1 5; row_v1 2 6]) /\
  ~ In 1 (map sale_id (tbl (snd (Part000.createSale rt_example (post_req (BodyJson (JObj asha_body)))
          (snd (Part000.deleteSale rt_example (delete_req 1) (db_with [row_v1 1 5; row_v1 2 6]))))))).
Proof.
  split; [exact ids_ok_two_rows|].
  apply (X_deleted_id_not_reused rt_example (post_req (BodyJson (JObj asha_body))) 1
           (db_with [row_v1 1 5; row_v1 2 6]) ids_ok_two_rows).
  - left; reflexivity.
  - unfold int4_min, int4_max; lia.
  - reflexivity.
Defined.
